(** * nn-book PDF text dumper: [script/extract_pdf.py] and [script/read_pdf.py]

    The two scripts open the file [nn.pdf], ask PyPDF2 for the page count and
    for the text of each page, and emit a header and one banner block per
    page: [extract_pdf.py] for every page into [nn_extracted.txt],
    [read_pdf.py] for the first ten pages onto standard output.

    The scripts are embedded as programs of a small monad over a world made of
    a file system, the working directory's permission, the standard output
    stream and what the encodings can represent.  An exception leaves the
    world as it is at the point of the raise (what was written stays
    written), which is why the monad returns the world on both outcomes.
    [read_pdf.py] sets standard output to UTF-8 before it prints;
    [extract_pdf.py] does not, and its one [print] raises where the stream's
    encoding cannot represent the message. *)

From Stdlib Require Import Ascii.
From stdpp Require Import gmap strings list fin_maps pretty.

(** ** Data model *)

(** The exceptions the scripts can meet.  The first two are what [open]
    raises, the third is what [PyPDF2.PdfReader] raises on a file it cannot
    parse, the fourth stands for whatever [extract_text] raises on a page,
    the last is what a text stream raises on a string its encoding cannot
    represent. *)
Inductive exception :=
| FileNotFoundError
| PermissionError
| PdfReadError
| PageExtractError
| UnicodeEncodeError.

(** The error classes the scripts' failures fall into; the last one is
    none of the three the scripts' description names. *)
Inductive error_class :=
| FileAccessError
| FileFormatError
| PageExtractionError
| OutputEncodingError.

Definition classify (e : exception) : error_class :=
  match e with
  | FileNotFoundError | PermissionError => FileAccessError
  | PdfReadError => FileFormatError
  | PageExtractError => PageExtractionError
  | UnicodeEncodeError => OutputEncodingError
  end.

(** An encoding is named by a string, as in [encoding='utf-8']. *)
Definition encoding := string.

(** What a text stream received: every string written, in order, with the
    encoding the stream had when it was written.  The character content of
    the stream is the concatenation of the strings. *)
Definition chunk : Type := encoding * string.

Inductive Content :=
| Binary (bytes : list Byte.byte)
| Text (chunks : list chunk).

Record File := mkFile {
  readable : bool;
  writable : bool;
  content : Content
}.

(** [sys.stdout]: its current encoding and what was printed so far. *)
Record Stream := mkStream {
  stream_encoding : encoding;
  stream_chunks : list chunk
}.

(** The world: the files, whether a file can be created in the working
    directory, [sys.stdout], and which strings each encoding other than
    UTF-8 can represent. *)
Record World := mkWorld {
  fs : gmap string File;
  cwd_writable : bool;
  stdout : Stream;
  codecs : encoding → string → bool
}.

(** A text file object as returned by [open(path, 'w', encoding=...)]. *)
Record TextIO := mkTextIO {
  io_path : string;
  io_encoding : encoding
}.

(** The concatenation of a list of strings. *)
Definition join (ss : list string) : string := foldr String.append "" ss.

Definition chunks_text (cs : list chunk) : string := join (snd <$> cs).

(** ** The monad of the scripts *)

Definition M (A : Type) : Type := World → World * (exception + A).

Definition ret {A} (a : A) : M A := λ w, (w, inr a).

Definition raise {A} (e : exception) : M A := λ w, (w, inl e).

Definition bind {A B} (m : M A) (k : A → M B) : M B :=
  λ w, match m w with
       | (w', inl e) => (w', inl e)
       | (w', inr a) => k a w'
       end.

Declare Scope py_scope.
Delimit Scope py_scope with py.
Notation "x <- m ;; k" := (bind m (λ x, k))
  (at level 100, m at next level, right associativity) : py_scope.
Notation "m ;; k" := (bind m (λ _, k))
  (at level 100, right associativity) : py_scope.
Local Open Scope py_scope.

(** [for x in l: body(x)] *)
Fixpoint for_in {A} (l : list A) (body : A → M unit) : M unit :=
  match l with
  | [] => ret tt
  | x :: l' => body x ;; for_in l' body
  end.

(** [range(n)] *)
Definition range (n : nat) : list nat := seq 0 n.

(** ** Strings *)

(** The newline character, [\n] in the scripts' literals. *)
Definition LF : string := String "010"%char "".

(** [s * n] on strings. *)
Fixpoint str_mul (s : string) (n : nat) : string :=
  match n with
  | 0 => ""
  | S n' => s +:+ str_mul s n'
  end.

(** [str(n)], as the f-strings format an [int]. *)
Definition str (n : nat) : string := pretty n.

(** Whether a stream of the encoding [enc] takes the string [s].  A string
    of this model is a text in its UTF-8 form, so UTF-8 takes every string;
    every encoding takes the line end; what else an encoding takes is the
    world's. *)
Definition encodable (w : World) (enc : encoding) (s : string) : bool :=
  String.eqb enc "utf-8" || String.eqb s LF || codecs w enc s.

(** Whether standard output, with the encoding it has, takes [s]. *)
Definition stdout_accepts (w : World) (s : string) : bool :=
  encodable w (stream_encoding (stdout w)) s.

(** ** Files and streams *)

(** [open(path, 'rb')]: the file object is represented by what it reads. *)
Definition open_rb (path : string) : M Content :=
  λ w, match fs w !! path with
       | None => (w, inl FileNotFoundError)
       | Some f =>
           if readable f then (w, inr (content f))
           else (w, inl PermissionError)
       end.

(** [open(path, 'w', encoding=enc)]: an existing file is truncated, a
    missing one is created. *)
Definition open_w (path : string) (enc : encoding) : M TextIO :=
  λ w, match fs w !! path with
       | Some f =>
           if writable f then
             (mkWorld (<[path := mkFile (readable f) true (Text [])]> (fs w))
                      (cwd_writable w) (stdout w) (codecs w),
              inr (mkTextIO path enc))
           else (w, inl PermissionError)
       | None =>
           if cwd_writable w then
             (mkWorld (<[path := mkFile true true (Text [])]> (fs w))
                      (cwd_writable w) (stdout w) (codecs w),
              inr (mkTextIO path enc))
           else (w, inl PermissionError)
       end.

Definition append_chunks (cs : list chunk) (f : File) : File :=
  match content f with
  | Text old => mkFile (readable f) (writable f) (Text (old ++ cs))
  | Binary _ => f
  end.

(** [out.write(s)]: a string the file's encoding cannot represent raises
    and writes nothing.  The file is closed by its [with] block on every exit
    path, so everything written has reached the file when the script ends,
    normally or not: the write goes to the file at once. *)
Definition write (out : TextIO) (s : string) : M unit :=
  λ w, if encodable w (io_encoding out) s then
         (mkWorld (alter (append_chunks [(io_encoding out, s)]) (io_path out) (fs w))
                  (cwd_writable w) (stdout w) (codecs w),
          inr tt)
       else (w, inl UnicodeEncodeError).

(** [sys.stdout.write(s)]: the string is recorded with the encoding the
    stream has at that moment; a string this encoding cannot represent
    raises and writes nothing. *)
Definition stdout_write (s : string) : M unit :=
  λ w, if stdout_accepts w s then
         (mkWorld (fs w) (cwd_writable w)
                  (mkStream (stream_encoding (stdout w))
                            (stream_chunks (stdout w)
                               ++ [(stream_encoding (stdout w), s)]))
                  (codecs w),
          inr tt)
       else (w, inl UnicodeEncodeError).

(** [print(s)]: the string, then the line end. *)
Definition print (s : string) : M unit :=
  stdout_write s ;; stdout_write LF.

(** [sys.stdout.reconfigure(encoding=enc)] *)
Definition stdout_reconfigure (enc : encoding) : M unit :=
  λ w, (mkWorld (fs w) (cwd_writable w)
                (mkStream enc (stream_chunks (stdout w))) (codecs w),
        inr tt).

(** ** The scripts *)

Section Scripts.

(** PyPDF2, the scripts' one collaborator: parsing a file into a document,
    the number of its pages, and the text of a page.  [Env] is whatever
    else the text of a page may depend on. *)
Context {Document Env : Type}.
Variable PdfReader : Content → option Document.
Variable num_pages : Document → nat.
Variable extract_text : Env → Document → nat → option string.

(** [PyPDF2.PdfReader(file)] *)
Definition pdf_reader (file : Content) : M Document :=
  match PdfReader file with
  | Some reader => ret reader
  | None => raise PdfReadError
  end.

(** [reader.pages[i].extract_text()] *)
Definition page_extract_text (env : Env) (reader : Document) (i : nat) : M string :=
  match extract_text env reader i with
  | Some text => ret text
  | None => raise PageExtractError
  end.

(** [script/extract_pdf.py] *)
Definition extract_pdf (env : Env) : M unit :=
  file <- open_rb "nn.pdf" ;;
  reader <- pdf_reader file ;;
  let total_pages := num_pages reader in
  out <- open_w "nn_extracted.txt" "utf-8" ;;
  write out ("총 페이지 수: " +:+ str total_pages +:+ LF +:+ LF) ;;
  for_in (range total_pages) (λ i,
    write out (LF +:+ str_mul "=" 60 +:+ LF) ;;
    write out ("페이지 " +:+ str (i + 1) +:+ LF) ;;
    write out (str_mul "=" 60 +:+ LF +:+ LF) ;;
    text <- page_extract_text env reader i ;;
    write out text ;;
    write out LF) ;;
  print ("추출 완료! 총 " +:+ str total_pages +:+ " 페이지").

(** [script/read_pdf.py] *)
Definition read_pdf (env : Env) : M unit :=
  stdout_reconfigure "utf-8" ;;
  file <- open_rb "nn.pdf" ;;
  reader <- pdf_reader file ;;
  print ("총 페이지 수: " +:+ str (num_pages reader) +:+ LF) ;;
  for_in (range (min 10 (num_pages reader))) (λ i,
    print (LF +:+ str_mul "=" 60) ;;
    print ("페이지 " +:+ str (i + 1)) ;;
    print (str_mul "=" 60 +:+ LF) ;;
    text <- page_extract_text env reader i ;;
    print text).

(** *** What the properties below speak of *)

(** [nn.pdf] is there, can be read and parses into [reader]. *)
Definition holds_pdf (w : World) (reader : Document) : Prop :=
  ∃ f, fs w !! "nn.pdf" = Some f ∧ readable f = true
       ∧ PdfReader (content f) = Some reader.

(** [texts] are the texts of the pages of [reader], in page order: every
    page can be extracted. *)
Definition page_texts (env : Env) (reader : Document) (texts : list string) : Prop :=
  length texts = num_pages reader
  ∧ ∀ i t, texts !! i = Some t → extract_text env reader i = Some t.

(** The text of a page does not depend on anything but the page. *)
Definition deterministic : Prop :=
  ∀ env1 env2 reader i, extract_text env1 reader i = extract_text env2 reader i.

End Scripts.

(** Whether [path] can be opened for writing. *)
Definition openable (w : World) (path : string) : bool :=
  match fs w !! path with
  | Some f => writable f
  | None => cwd_writable w
  end.

(** Whether [path] can be opened for reading: it is there and readable. *)
Definition can_read (w : World) (path : string) : bool :=
  from_option readable false (fs w !! path).

(** The world after [path] was opened for writing: the file is there and
    empty, and keeps the read permission it had. *)
Definition truncated (w : World) (path : string) : World :=
  mkWorld (<[path := mkFile (from_option readable true (fs w !! path)) true (Text [])]> (fs w))
          (cwd_writable w) (stdout w) (codecs w).

(** The chunks of the text file at [path], if there is one. *)
Definition file_chunks (w : World) (path : string) : option (list chunk) :=
  match fs w !! path with
  | Some f => match content f with
              | Text cs => Some cs
              | Binary _ => None
              end
  | None => None
  end.

(** The characters of the text file at [path], if there is one. *)
Definition file_text (w : World) (path : string) : option string :=
  chunks_text <$> file_chunks w path.

(** The chunks standard output received in going from [w] to [w']. *)
Definition printed (w w' : World) : list chunk :=
  drop (length (stream_chunks (stdout w))) (stream_chunks (stdout w')).

(** Strings written under one encoding. *)
Definition tagged (enc : encoding) (ss : list string) : list chunk :=
  (λ s, (enc, s)) <$> ss.

(** The separator line's characters. *)
Definition separator : string := str_mul "=" 60.

(** The header both scripts start with, as a string. *)
Definition header (n : nat) : string :=
  "총 페이지 수: " +:+ str n +:+ LF +:+ LF.

(** The three writes of [extract_pdf.py] that make the banner of page
    number [k], and the five that make its block with the text [t]. *)
Definition banner_writes (k : nat) : list string :=
  [LF +:+ separator +:+ LF; "페이지 " +:+ str k +:+ LF; separator +:+ LF +:+ LF].

Definition block_writes (k : nat) (t : string) : list string :=
  banner_writes k ++ [t; LF].

(** The same for [read_pdf.py], where each [print] is the string and the
    line end. *)
Definition banner_prints (k : nat) : list string :=
  [LF +:+ separator; LF; "페이지 " +:+ str k; LF; separator +:+ LF; LF].

Definition block_prints (k : nat) (t : string) : list string :=
  banner_prints k ++ [t; LF].

(** The blocks of the pages with the texts [texts], numbered from 1. *)
Definition file_blocks (texts : list string) : list (list string) :=
  imap (λ i t, block_writes (i + 1) t) texts.

Definition stdout_blocks (texts : list string) : list (list string) :=
  imap (λ i t, block_prints (i + 1) t) texts.

(** The banner and the block of a page as strings. *)
Definition banner (k : nat) : string :=
  LF +:+ separator +:+ LF +:+ "페이지 " +:+ str k +:+ LF +:+ separator +:+ LF +:+ LF.

Definition block (k : nat) (t : string) : string :=
  banner k +:+ t +:+ LF.

(** The completion message of [extract_pdf.py]. *)
Definition completion (n : nat) : string :=
  "추출 완료! 총 " +:+ str n +:+ " 페이지".

(** The output file's structure as the specification words it: the header
    line, a blank line, then per page a separator line, the page line, a
    separator line, a blank line, the text and a newline.  The wording of the
    two labels is left open: the scripts' labels are Korean, the
    specification renders them as [Total page count: ] and [Page ]. *)
Definition worded_block (page_label : string) (k : nat) (t : string) : string :=
  separator +:+ LF +:+ page_label +:+ str k +:+ LF +:+ separator +:+ LF +:+ LF
  +:+ t +:+ LF.

Definition worded_dump (count_label page_label : string)
    (n : nat) (texts : list string) : string :=
  count_label +:+ str n +:+ LF +:+ LF
  +:+ join (imap (λ i t, worded_block page_label (i + 1) t) texts).

(** ** A small collaborator for concrete runs

    A document is the list of its pages, a page is the text it extracts to or
    [None] when its extraction raises.  A binary file parses into one page
    per byte: the zero byte is a page that cannot be extracted, a space is a
    page without text, any other byte is a page holding that one character.
    A file that is not binary does not parse. *)
Module Toy.

Definition Document := list (option string).

Definition page_of_byte (b : Byte.byte) : option string :=
  match b with
  | Byte.x00 => None
  | Byte.x20 => Some ""
  | _ => Some (String (ascii_of_byte b) "")
  end.

Definition PdfReader (c : Content) : option Document :=
  match c with
  | Binary bytes => Some (page_of_byte <$> bytes)
  | Text _ => None
  end.

Definition num_pages (d : Document) : nat := length d.

Definition extract_text (_ : unit) (d : Document) (i : nat) : option string :=
  mjoin (d !! i).

Definition extract_pdf : M unit := extract_pdf PdfReader num_pages extract_text tt.
Definition read_pdf : M unit := read_pdf PdfReader num_pages extract_text tt.

(** Whether every character of a string is an ASCII character. *)
Fixpoint is_ascii (s : string) : bool :=
  match s with
  | EmptyString => true
  | String c s' => (nat_of_ascii c <? 128) && is_ascii s'
  end.

(** A table of encodings in which [cp949] takes every string and any other
    encoding the ASCII strings only. *)
Definition codecs (enc : encoding) (s : string) : bool :=
  String.eqb enc "cp949" || is_ascii s.

(** A world whose only file is [nn.pdf] with the given bytes; standard
    output is a [cp949] stream. *)
Definition world_of (bytes : list Byte.byte) : World :=
  mkWorld {[ "nn.pdf" := mkFile true false (Binary bytes) ]} true
          (mkStream "cp949" []) codecs.

(** A world without any file. *)
Definition empty_world : World := mkWorld ∅ true (mkStream "cp949" []) codecs.

(** Three pages: [a], a page without text, [b]. *)
Definition three : list Byte.byte := [Byte.x61; Byte.x20; Byte.x62].

(** Twelve pages, [a] to [l]. *)
Definition twelve : list Byte.byte :=
  [Byte.x61; Byte.x62; Byte.x63; Byte.x64; Byte.x65; Byte.x66;
   Byte.x67; Byte.x68; Byte.x69; Byte.x6a; Byte.x6b; Byte.x6c].

(** Four pages, the third of which cannot be extracted. *)
Definition broken : list Byte.byte := [Byte.x61; Byte.x62; Byte.x00; Byte.x63].

(** The texts of the pages of [three] and of [twelve]. *)
Definition three_texts : list string := ["a"; ""; "b"].

Definition twelve_texts : list string :=
  ["a"; "b"; "c"; "d"; "e"; "f"; "g"; "h"; "i"; "j"; "k"; "l"].

End Toy.

(** Further worlds and documents for concrete runs. *)
Module Cases.

(** [nn.pdf] is a text file, which the small collaborator cannot parse. *)
Definition unparsable : World :=
  mkWorld {[ "nn.pdf" := mkFile true false (Text []) ]} true
          (mkStream "cp949" []) Toy.codecs.

(** [nn.pdf] holds the three pages, and no file can be created. *)
Definition locked : World :=
  mkWorld {[ "nn.pdf" := mkFile true false (Binary Toy.three) ]} false
          (mkStream "cp949" []) Toy.codecs.

(** [nn.pdf] holds the three pages, and [nn_extracted.txt] is there already
    with a text of an earlier time. *)
Definition stale : World :=
  mkWorld (<[ "nn_extracted.txt" := mkFile true true (Text [("latin-1", "old")]) ]>
             {[ "nn.pdf" := mkFile true false (Binary Toy.three) ]})
          true (mkStream "cp949" []) Toy.codecs.

(** [nn.pdf] holds the three pages, and standard output is an ASCII
    stream. *)
Definition plain : World :=
  mkWorld {[ "nn.pdf" := mkFile true false (Binary Toy.three) ]} true
          (mkStream "ascii" []) Toy.codecs.

(** Eleven pages, [a] to [j] and a last one that cannot be extracted. *)
Definition eleven : list Byte.byte :=
  [Byte.x61; Byte.x62; Byte.x63; Byte.x64; Byte.x65; Byte.x66;
   Byte.x67; Byte.x68; Byte.x69; Byte.x6a; Byte.x00].

End Cases.

(** ** The effect of a run of writes *)

(** The world after the strings [ss] were written to [out] one by one. *)
Definition emit (out : TextIO) (ss : list string) (w : World) : World :=
  mkWorld (alter (append_chunks (tagged (io_encoding out) ss)) (io_path out) (fs w))
          (cwd_writable w) (stdout w) (codecs w).

(** The world after the strings [ss] were written to standard output. *)
Definition say (ss : list string) (w : World) : World :=
  mkWorld (fs w) (cwd_writable w)
          (mkStream (stream_encoding (stdout w))
                    (stream_chunks (stdout w)
                       ++ tagged (stream_encoding (stdout w)) ss))
          (codecs w).

(** The world after standard output was given the encoding [enc]. *)
Definition reconfigured (enc : encoding) (w : World) : World :=
  mkWorld (fs w) (cwd_writable w) (mkStream enc (stream_chunks (stdout w)))
          (codecs w).

(** The bodies of the loops of [extract_pdf.py] and of [read_pdf.py], under a
    name of their own for the lemmas on the loops. *)
Definition extract_body {Document Env : Type}
    (extract_text : Env → Document → nat → option string)
    (env : Env) (reader : Document) (out : TextIO) (i : nat) : M unit :=
  write out (LF +:+ str_mul "=" 60 +:+ LF) ;;
  write out ("페이지 " +:+ str (i + 1) +:+ LF) ;;
  write out (str_mul "=" 60 +:+ LF +:+ LF) ;;
  text <- page_extract_text extract_text env reader i ;;
  write out text ;;
  write out LF.

Definition read_body {Document Env : Type}
    (extract_text : Env → Document → nat → option string)
    (env : Env) (reader : Document) (i : nat) : M unit :=
  print (LF +:+ str_mul "=" 60) ;;
  print ("페이지 " +:+ str (i + 1)) ;;
  print (str_mul "=" 60 +:+ LF) ;;
  text <- page_extract_text extract_text env reader i ;;
  print text.

(** What a loop over the page indices [l] emits, and whether it gets to the
    end of them: for every page the strings [block] of its number and text,
    until the first page that cannot be extracted, of which only the strings
    [banner] of its number are emitted. *)
Fixpoint loop_out {Document Env : Type}
    (block : nat → string → list string) (banner : nat → list string)
    (extract_text : Env → Document → nat → option string)
    (env : Env) (reader : Document) (l : list nat) : list string * bool :=
  match l with
  | [] => ([], true)
  | i :: l' =>
      match extract_text env reader i with
      | Some t =>
          let r := loop_out block banner extract_text env reader l' in
          (block (i + 1) t ++ r.1, r.2)
      | None => (banner (i + 1), false)
      end
  end.

(** What the loop of [extract_pdf.py] writes, and what the loop of
    [read_pdf.py] prints. *)
Definition loop_writes {Document Env : Type} :=
  @loop_out Document Env block_writes banner_writes.

Definition loop_prints {Document Env : Type} :=
  @loop_out Document Env block_prints banner_prints.

(** How a loop ends. *)
Definition loop_end (ok : bool) : exception + unit :=
  if ok then inr tt else inl PageExtractError.

(** ** Strings and chunks *)

Lemma append_assoc (a b c : string) : (a +:+ b) +:+ c = a +:+ (b +:+ c).
Proof.
  induction a as [|x a IH]; [done|].
  change (String x ((a +:+ b) +:+ c) = String x (a +:+ (b +:+ c))).
  by rewrite IH.
Qed.

Lemma append_nil_r (a : string) : a +:+ "" = a.
Proof.
  induction a as [|x a IH]; [done|].
  change (String x (a +:+ "") = String x a). by rewrite IH.
Qed.

(** [str] is the decimal numeral: one digit below ten, and above it the
    numeral of the tens followed by the last digit. *)
Lemma pretty_N_go_app (x : N) (s : string) :
  pretty_N_go x s = pretty_N_go x "" +:+ s.
Proof.
  revert s. induction (N.lt_wf_0 x) as [x _ IH]. intros s.
  destruct (decide (0 < x)%N) as [Hx|Hx].
  - assert (Hlt : (x `div` 10 < x)%N) by (apply N.div_lt; lia).
    rewrite (pretty_N_go_step x s), (pretty_N_go_step x "") by done.
    rewrite (IH _ Hlt (String (pretty_N_char (x `mod` 10)) s)).
    rewrite (IH _ Hlt (String (pretty_N_char (x `mod` 10)) "")).
    by rewrite append_assoc.
  - assert (x = 0%N) as -> by lia. by rewrite !pretty_N_go_0.
Qed.

Lemma str_digit (n : nat) : n < 10 → pretty n = String (ascii_of_nat (48 + n)) "".
Proof. intros Hn. do 10 (destruct n as [|n]; [reflexivity|]). lia. Qed.

Lemma str_tens (n : nat) :
  10 ≤ n → pretty n = pretty (n / 10) +:+ pretty (n mod 10).
Proof.
  intros Hn. unfold pretty, pretty_nat, pretty, pretty_N.
  assert (Hq : 0 < n / 10) by (apply Nat.div_str_pos; lia).
  rewrite (decide_False (P := N.of_nat n = 0%N)) by lia.
  rewrite (decide_False (P := N.of_nat (n / 10) = 0%N)) by lia.
  rewrite (pretty_N_go_step (N.of_nat n)) by lia.
  rewrite pretty_N_go_app.
  rewrite Nat2N.inj_div, Nat2N.inj_mod. change (N.of_nat 10) with 10%N.
  f_equal.
  destruct (decide (N.of_nat n `mod` 10 = 0)%N) as [Hr|Hr].
  - by rewrite Hr.
  - rewrite pretty_N_go_step by (by apply N.neq_0_lt_0).
    rewrite N.div_small by (apply N.mod_lt; lia).
    rewrite pretty_N_go_0. by rewrite N.Div0.mod_mod.
Qed.

Lemma join_app (xs ys : list string) : join (xs ++ ys) = join xs +:+ join ys.
Proof.
  induction xs as [|x xs IH]; [done|].
  change (x +:+ join (xs ++ ys) = (x +:+ join xs) +:+ join ys).
  by rewrite IH, append_assoc.
Qed.

Lemma join_concat (bs : list (list string)) : join (concat bs) = join (join <$> bs).
Proof.
  induction bs as [|b bs IH]; [done|].
  change (join (b ++ concat bs) = join b +:+ join (join <$> bs)).
  by rewrite join_app, IH.
Qed.

Lemma chunks_text_tagged enc ss : chunks_text (tagged enc ss) = join ss.
Proof.
  unfold chunks_text, tagged. rewrite <- list_fmap_compose.
  f_equal. by rewrite list_fmap_id.
Qed.

Lemma tagged_app enc xs ys : tagged enc (xs ++ ys) = tagged enc xs ++ tagged enc ys.
Proof. apply fmap_app. Qed.

Lemma str_mul_length (c : ascii) n : String.length (str_mul (String c "") n) = n.
Proof.
  induction n as [|n IH]; [done|].
  change (S (String.length (str_mul (String c "") n)) = S n). by rewrite IH.
Qed.

Lemma separator_chars i :
  i < 60 → String.get i separator = Some "="%char.
Proof.
  intros Hi. do 60 (destruct i as [|i]; [reflexivity|]). lia.
Qed.

Lemma join_block_writes k t : join (block_writes k t) = block k t.
Proof.
  unfold block_writes, banner_writes, block, banner, join.
  cbn [app foldr]. by rewrite !append_assoc, ?append_nil_r.
Qed.

Lemma join_block_prints k t : join (block_prints k t) = block k t.
Proof.
  unfold block_prints, banner_prints, block, banner, join.
  cbn [app foldr]. by rewrite !append_assoc, ?append_nil_r.
Qed.

(** ** Writes to a file and to standard output *)

Lemma append_chunks_nil f : append_chunks [] f = f.
Proof.
  unfold append_chunks. destruct f as [r wr [b|cs]]; simpl; [done|].
  by rewrite app_nil_r.
Qed.

Lemma append_chunks_app cs1 cs2 f :
  append_chunks cs2 (append_chunks cs1 f) = append_chunks (cs1 ++ cs2) f.
Proof.
  unfold append_chunks. destruct f as [r wr [b|cs]]; simpl; [done|].
  by rewrite app_assoc.
Qed.

Lemma emit_nil out w : emit out [] w = w.
Proof.
  unfold emit. destruct w as [m c so cd]; simpl. f_equal.
  apply alter_id. intros f _. apply append_chunks_nil.
Qed.

Lemma emit_emit out ss1 ss2 w :
  emit out ss2 (emit out ss1 w) = emit out (ss1 ++ ss2) w.
Proof.
  unfold emit; simpl. f_equal. rewrite alter_alter_eq.
  apply alter_ext. intros f _. simpl.
  by rewrite append_chunks_app, tagged_app.
Qed.

Lemma encodable_utf8 w s : encodable w "utf-8" s = true.
Proof. reflexivity. Qed.

Lemma accepts_utf8 w s :
  stream_encoding (stdout w) = "utf-8" → stdout_accepts w s = true.
Proof. unfold stdout_accepts. intros ->. apply encodable_utf8. Qed.

Lemma accepts_LF w : stdout_accepts w LF = true.
Proof.
  unfold stdout_accepts, encodable.
  by destruct (String.eqb (stream_encoding (stdout w)) "utf-8").
Qed.

Lemma bind_write {B} path s (k : unit → M B) w :
  bind (write (mkTextIO path "utf-8") s) k w
  = k tt (emit (mkTextIO path "utf-8") [s] w).
Proof. reflexivity. Qed.

Lemma say_nil w : say [] w = w.
Proof.
  unfold say. destruct w as [m c [e cs] cd]; simpl. by rewrite app_nil_r.
Qed.

Lemma say_say ss1 ss2 w : say ss2 (say ss1 w) = say (ss1 ++ ss2) w.
Proof.
  unfold say; simpl. by rewrite tagged_app, app_assoc.
Qed.

(** [print(s)] either prints the string and the line end, or raises
    without printing anything. *)
Lemma print_say s w :
  print s w
  = if stdout_accepts w s then (say [s; LF] w, inr tt)
    else (w, inl UnicodeEncodeError).
Proof.
  unfold print, bind. unfold stdout_write at 1.
  destruct (stdout_accepts w s); [|done].
  unfold stdout_write. rewrite accepts_LF.
  unfold say; simpl. by rewrite <- app_assoc.
Qed.

Lemma bind_print {B} s (k : unit → M B) w :
  stream_encoding (stdout w) = "utf-8" →
  bind (print s) k w = k tt (say [s; LF] w).
Proof.
  intros Henc. unfold bind at 1. by rewrite print_say, accepts_utf8.
Qed.

Lemma print_say_utf8 s w :
  stream_encoding (stdout w) = "utf-8" →
  print s w = (say [s; LF] w, inr tt).
Proof. intros Henc. by rewrite print_say, accepts_utf8. Qed.

Lemma for_in_app {A} (l1 l2 : list A) (body : A → M unit) w :
  for_in (l1 ++ l2) body w = bind (for_in l1 body) (λ _, for_in l2 body) w.
Proof.
  revert w. induction l1 as [|x l1 IH]; intros w; [done|].
  simpl. unfold bind. destruct (body x w) as [w' [e|[]]]; [done|].
  by rewrite IH.
Qed.

Lemma bind_ret {A B} (a : A) (k : A → M B) w : bind (ret a) k w = k a w.
Proof. reflexivity. Qed.

Lemma bind_raise {A B} e (k : A → M B) w : bind (raise e) k w = (w, inl e).
Proof. reflexivity. Qed.

Lemma write_emit path s w :
  write (mkTextIO path "utf-8") s w = (emit (mkTextIO path "utf-8") [s] w, inr tt).
Proof. reflexivity. Qed.

Lemma open_w_run path enc w :
  open_w path enc w
  = if openable w path then (truncated w path, inr (mkTextIO path enc))
    else (w, inl PermissionError).
Proof.
  unfold open_w, openable, truncated.
  destruct (fs w !! path) as [f|]; simpl.
  - by destruct (writable f).
  - by destruct (cwd_writable w).
Qed.

(** ** The loops *)

Section Loops.

Context {Document Env : Type}.
Variable extract_text : Env → Document → nat → option string.
Variables (env : Env) (reader : Document).

Lemma extract_body_run path i w :
  extract_body extract_text env reader (mkTextIO path "utf-8") i w
  = match extract_text env reader i with
    | Some t => (emit (mkTextIO path "utf-8") (block_writes (i + 1) t) w, inr tt)
    | None =>
        (emit (mkTextIO path "utf-8") (banner_writes (i + 1)) w,
         inl PageExtractError)
    end.
Proof.
  unfold extract_body. rewrite !bind_write. unfold page_extract_text.
  destruct (extract_text env reader i) as [t|].
  - rewrite bind_ret, bind_write, write_emit, !emit_emit. done.
  - rewrite bind_raise, !emit_emit. done.
Qed.

Lemma read_body_run i w :
  stream_encoding (stdout w) = "utf-8" →
  read_body extract_text env reader i w
  = match extract_text env reader i with
    | Some t => (say (block_prints (i + 1) t) w, inr tt)
    | None => (say (banner_prints (i + 1)) w, inl PageExtractError)
    end.
Proof.
  intros Henc. unfold read_body.
  rewrite !bind_print by (simpl; exact Henc). unfold page_extract_text.
  destruct (extract_text env reader i) as [t|].
  - rewrite bind_ret, print_say_utf8 by (simpl; exact Henc).
    rewrite !say_say. done.
  - rewrite bind_raise, !say_say. done.
Qed.

Lemma extract_loop_run path l w :
  for_in l (extract_body extract_text env reader (mkTextIO path "utf-8")) w
  = (emit (mkTextIO path "utf-8") (loop_writes extract_text env reader l).1 w,
     loop_end (loop_writes extract_text env reader l).2).
Proof.
  unfold loop_writes. revert w. induction l as [|i l IH]; intros w.
  - simpl. by rewrite emit_nil.
  - simpl. unfold bind. rewrite extract_body_run.
    destruct (extract_text env reader i) as [t|]; [|done].
    rewrite IH, emit_emit. done.
Qed.

Lemma read_loop_run l w :
  stream_encoding (stdout w) = "utf-8" →
  for_in l (read_body extract_text env reader) w
  = (say (loop_prints extract_text env reader l).1 w,
     loop_end (loop_prints extract_text env reader l).2).
Proof.
  unfold loop_prints. revert w. induction l as [|i l IH]; intros w Henc.
  - simpl. by rewrite say_nil.
  - simpl. unfold bind. rewrite read_body_run by exact Henc.
    destruct (extract_text env reader i) as [t|]; [|done].
    rewrite IH by (simpl; exact Henc). rewrite say_say. done.
Qed.

(** Over pages that can all be extracted, the loop emits their blocks. *)
Lemma loop_out_ok block banner texts : ∀ a,
  (∀ i t, texts !! i = Some t → extract_text env reader (a + i) = Some t) →
  loop_out block banner extract_text env reader (seq a (length texts))
  = (concat (imap (λ i t, block (a + i + 1) t) texts), true).
Proof.
  induction texts as [|t texts IH]; intros a Hex; [done|].
  pose proof (Hex 0 t eq_refl) as H0. rewrite Nat.add_0_r in H0.
  simpl. rewrite H0, (IH (S a)).
  - simpl. rewrite Nat.add_0_r. do 3 f_equal.
    apply imap_ext. intros i x _. simpl.
    by replace (a + S i) with (S (a + i)) by lia.
  - intros i x Hi. replace (S a + i) with (a + S i) by lia. by apply Hex.
Qed.

(** A loop over two runs of pages. *)
Lemma loop_out_app block banner l1 l2 :
  loop_out block banner extract_text env reader (l1 ++ l2)
  = let r1 := loop_out block banner extract_text env reader l1 in
    let r2 := loop_out block banner extract_text env reader l2 in
    if r1.2 then (r1.1 ++ r2.1, r2.2) else r1.
Proof.
  induction l1 as [|i l1 IH]; simpl.
  - by destruct (loop_out block banner extract_text env reader l2).
  - destruct (extract_text env reader i) as [t|]; [|done].
    rewrite IH. simpl.
    destruct (loop_out block banner extract_text env reader l1) as [ss [|]];
      simpl; [by rewrite app_assoc|done].
Qed.

End Loops.

(** ** The scripts as functions of the world *)

Section Runs.

Context {Document Env : Type}.
Variable PdfReader : Content → option Document.
Variable num_pages : Document → nat.
Variable extract_text : Env → Document → nat → option string.

Lemma extract_pdf_run env w :
  extract_pdf PdfReader num_pages extract_text env w
  = match fs w !! "nn.pdf" with
    | None => (w, inl FileNotFoundError)
    | Some f =>
        if readable f then
          match PdfReader (content f) with
          | None => (w, inl PdfReadError)
          | Some reader =>
              if openable w "nn_extracted.txt" then
                let n := num_pages reader in
                let r := loop_writes extract_text env reader (range n) in
                let w1 := emit (mkTextIO "nn_extracted.txt" "utf-8")
                               (header n :: r.1)
                               (truncated w "nn_extracted.txt") in
                if r.2 then
                  if stdout_accepts w (completion n)
                  then (say [completion n; LF] w1, inr tt)
                  else (w1, inl UnicodeEncodeError)
                else (w1, inl PageExtractError)
              else (w, inl PermissionError)
          end
        else (w, inl PermissionError)
    end.
Proof.
  unfold extract_pdf. unfold bind at 1. unfold open_rb.
  destruct (fs w !! "nn.pdf") as [f|]; [|done].
  destruct (readable f); [|done].
  unfold bind at 1. unfold pdf_reader.
  destruct (PdfReader (content f)) as [reader|]; [|done].
  unfold ret at 1. cbv zeta. unfold bind at 1. rewrite open_w_run.
  destruct (openable w "nn_extracted.txt"); [|done].
  rewrite bind_write. unfold bind at 1.
  pose proof (extract_loop_run extract_text env reader
                "nn_extracted.txt" (range (num_pages reader))) as Hloop.
  unfold extract_body in Hloop. rewrite Hloop. clear Hloop.
  rewrite emit_emit.
  destruct (loop_writes extract_text env reader (range (num_pages reader))) as [ss [|]];
    simpl; [|done].
  rewrite print_say. done.
Qed.

Lemma read_pdf_run env w :
  read_pdf PdfReader num_pages extract_text env w
  = let w0 := reconfigured "utf-8" w in
    match fs w !! "nn.pdf" with
    | None => (w0, inl FileNotFoundError)
    | Some f =>
        if readable f then
          match PdfReader (content f) with
          | None => (w0, inl PdfReadError)
          | Some reader =>
              let n := num_pages reader in
              let r := loop_prints extract_text env reader (range (min 10 n)) in
              (say (("총 페이지 수: " +:+ str n +:+ LF) :: LF :: r.1) w0,
               loop_end r.2)
          end
        else (w0, inl PermissionError)
    end.
Proof.
  unfold read_pdf. unfold bind at 1. unfold stdout_reconfigure.
  fold (reconfigured "utf-8" w). cbv zeta.
  unfold bind at 1. unfold open_rb.
  change (fs (reconfigured "utf-8" w)) with (fs w).
  destruct (fs w !! "nn.pdf") as [f|]; [|done].
  destruct (readable f); [|done].
  unfold bind at 1. unfold pdf_reader.
  destruct (PdfReader (content f)) as [reader|]; [|done].
  unfold ret at 1. rewrite bind_print by done.
  pose proof (read_loop_run extract_text env reader
                (range (min 10 (num_pages reader)))) as Hloop.
  unfold read_body in Hloop. rewrite Hloop by done. clear Hloop.
  by rewrite say_say.
Qed.

End Runs.

(** ** What a world holds after the writes *)

Lemma file_chunks_emit_truncated path enc ss w :
  file_chunks (emit (mkTextIO path enc) ss (truncated w path)) path
  = Some (tagged enc ss).
Proof.
  unfold file_chunks, emit, truncated; simpl.
  rewrite alter_insert_eq, lookup_insert_eq. done.
Qed.

Lemma printed_say ss w0 w :
  stream_chunks (stdout w0) = stream_chunks (stdout w) →
  printed w (say ss w0) = tagged (stream_encoding (stdout w0)) ss.
Proof.
  intros Heq. unfold printed, say; simpl. rewrite Heq.
  by rewrite drop_app_length.
Qed.

Lemma printed_same w w' : stdout w' = stdout w → printed w w' = [].
Proof. intros Heq. unfold printed. rewrite Heq. apply drop_all. Qed.

Lemma file_chunks_say ss w path : file_chunks (say ss w) path = file_chunks w path.
Proof. reflexivity. Qed.

Lemma file_blocks_lookup texts i t :
  texts !! i = Some t → file_blocks texts !! i = Some (block_writes (i + 1) t).
Proof. intros Hi. unfold file_blocks. by rewrite list_lookup_imap, Hi. Qed.

Lemma stdout_blocks_lookup texts i t :
  texts !! i = Some t → stdout_blocks texts !! i = Some (block_prints (i + 1) t).
Proof. intros Hi. unfold stdout_blocks. by rewrite list_lookup_imap, Hi. Qed.

Lemma join_file_blocks texts :
  join (concat (file_blocks texts)) = join (imap (λ i t, block (i + 1) t) texts).
Proof.
  rewrite join_concat. unfold file_blocks. rewrite fmap_imap.
  f_equal. apply imap_ext. intros i t _. apply join_block_writes.
Qed.

Lemma join_stdout_blocks texts :
  join (concat (stdout_blocks texts)) = join (imap (λ i t, block (i + 1) t) texts).
Proof.
  rewrite join_concat. unfold stdout_blocks. rewrite fmap_imap.
  f_equal. apply imap_ext. intros i t _. apply join_block_prints.
Qed.

(** ** Runs on a document whose pages can all be extracted *)

Section ValidRuns.

Context {Document Env : Type}.
Variable PdfReader : Content → option Document.
Variable num_pages : Document → nat.
Variable extract_text : Env → Document → nat → option string.

Lemma loop_writes_texts env reader texts :
  page_texts num_pages extract_text env reader texts →
  loop_writes extract_text env reader (range (num_pages reader))
  = (concat (file_blocks texts), true).
Proof.
  intros [Hlen Hex]. unfold loop_writes, range. rewrite <- Hlen.
  rewrite (loop_out_ok extract_text env reader block_writes banner_writes texts 0);
    [done|]. intros i t Hi. by apply Hex.
Qed.

Lemma loop_prints_texts env reader texts :
  page_texts num_pages extract_text env reader texts →
  loop_prints extract_text env reader (range (min 10 (num_pages reader)))
  = (concat (stdout_blocks (take 10 texts)), true).
Proof.
  intros [Hlen Hex]. unfold loop_prints, range.
  rewrite <- Hlen, <- length_take.
  rewrite (loop_out_ok extract_text env reader block_prints banner_prints
             (take 10 texts) 0); [done|].
  intros i t Hi. apply Hex.
  apply lookup_take_Some in Hi. by destruct Hi.
Qed.

Lemma extract_pdf_valid env w reader texts :
  holds_pdf PdfReader w reader →
  page_texts num_pages extract_text env reader texts →
  openable w "nn_extracted.txt" = true →
  extract_pdf PdfReader num_pages extract_text env w
  = let w1 := emit (mkTextIO "nn_extracted.txt" "utf-8")
                   (header (num_pages reader) :: concat (file_blocks texts))
                   (truncated w "nn_extracted.txt") in
    if stdout_accepts w (completion (num_pages reader))
    then (say [completion (num_pages reader); LF] w1, inr tt)
    else (w1, inl UnicodeEncodeError).
Proof.
  intros (f & Hf & Hr & Hp) Htexts Hopen.
  rewrite extract_pdf_run, Hf, Hr, Hp, Hopen. cbv zeta.
  by rewrite (loop_writes_texts env reader texts Htexts).
Qed.

(** The output file of such a run, whether the completion message can be
    printed or not. *)
Lemma extract_pdf_valid_file env w reader texts :
  holds_pdf PdfReader w reader →
  page_texts num_pages extract_text env reader texts →
  openable w "nn_extracted.txt" = true →
  file_chunks (extract_pdf PdfReader num_pages extract_text env w).1 "nn_extracted.txt"
  = Some (tagged "utf-8" (header (num_pages reader) :: concat (file_blocks texts))).
Proof.
  intros Hpdf Htexts Hopen.
  rewrite (extract_pdf_valid env w reader texts Hpdf Htexts Hopen). cbv zeta.
  destruct (stdout_accepts w (completion (num_pages reader))); simpl.
  - by rewrite file_chunks_say, file_chunks_emit_truncated.
  - by rewrite file_chunks_emit_truncated.
Qed.

(** How such a run ends. *)
Lemma extract_pdf_valid_end env w reader texts :
  holds_pdf PdfReader w reader →
  page_texts num_pages extract_text env reader texts →
  openable w "nn_extracted.txt" = true →
  (extract_pdf PdfReader num_pages extract_text env w).2
  = if stdout_accepts w (completion (num_pages reader)) then inr tt
    else inl UnicodeEncodeError.
Proof.
  intros Hpdf Htexts Hopen.
  rewrite (extract_pdf_valid env w reader texts Hpdf Htexts Hopen). cbv zeta.
  by destruct (stdout_accepts w (completion (num_pages reader))).
Qed.

Lemma read_pdf_valid env w reader texts :
  holds_pdf PdfReader w reader →
  page_texts num_pages extract_text env reader texts →
  read_pdf PdfReader num_pages extract_text env w
  = (say (("총 페이지 수: " +:+ str (num_pages reader) +:+ LF) :: LF
            :: concat (stdout_blocks (take 10 texts)))
       (reconfigured "utf-8" w),
     inr tt).
Proof.
  intros (f & Hf & Hr & Hp) Htexts.
  rewrite read_pdf_run, Hf, Hr, Hp. cbv zeta.
  by rewrite (loop_prints_texts env reader texts Htexts).
Qed.

End ValidRuns.

(** ** The small collaborator's documents *)

Lemma toy_holds_pdf bytes :
  holds_pdf Toy.PdfReader (Toy.world_of bytes) (Toy.page_of_byte <$> bytes).
Proof.
  exists (mkFile true false (Binary bytes)). split; [|done].
  unfold Toy.world_of; simpl. apply lookup_singleton_eq.
Qed.

Lemma toy_page_texts texts :
  page_texts Toy.num_pages Toy.extract_text tt (Some <$> texts) texts.
Proof.
  split.
  - unfold Toy.num_pages. by rewrite length_fmap.
  - intros i t Hi. unfold Toy.extract_text, Toy.Document.
    by rewrite list_lookup_fmap, Hi.
Qed.

Lemma toy_openable bytes : openable (Toy.world_of bytes) "nn_extracted.txt" = true.
Proof.
  unfold openable, Toy.world_of; simpl.
  by rewrite lookup_singleton_ne.
Qed.

(** ** Properties of the scripts *)

Section Claims.

Context {Document Env : Type}.
Variable PdfReader : Content → option Document.
Variable num_pages : Document → nat.
Variable extract_text : Env → Document → nat → option string.

(** C1: on a valid document of N pages the output file of
    [extract_pdf.py] holds, after the header, exactly N page blocks in page
    order, the block of the page at index [i] being the banner that shows
    the decimal numeral of [i + 1] followed by the page's text and a
    newline; the blocks [read_pdf.py] prints show [i + 1] for the page at
    index [i] as well.  The file is this one whether or not the completion
    message can be printed afterwards. *)
Theorem full_extract_blocks_numbered env w reader texts :
  holds_pdf PdfReader w reader →
  page_texts num_pages extract_text env reader texts →
  openable w "nn_extracted.txt" = true →
  ∃ w'',
    file_chunks (extract_pdf PdfReader num_pages extract_text env w).1
      "nn_extracted.txt"
    = Some (tagged "utf-8"
              (("총 페이지 수: " +:+ pretty (num_pages reader) +:+ LF +:+ LF)
                 :: concat (file_blocks texts)))
    ∧ length (file_blocks texts) = num_pages reader
    ∧ (∀ i t, texts !! i = Some t →
         file_blocks texts !! i
         = Some [LF +:+ separator +:+ LF; "페이지 " +:+ pretty (i + 1) +:+ LF;
                 separator +:+ LF +:+ LF; t; LF])
    ∧ read_pdf PdfReader num_pages extract_text env w = (w'', inr tt)
    ∧ printed w w''
      = tagged "utf-8" (("총 페이지 수: " +:+ pretty (num_pages reader) +:+ LF) :: LF
                          :: concat (stdout_blocks (take 10 texts)))
    ∧ (∀ i t, take 10 texts !! i = Some t →
         stdout_blocks (take 10 texts) !! i
         = Some [LF +:+ separator; LF; "페이지 " +:+ pretty (i + 1); LF;
                 separator +:+ LF; LF; t; LF])
    ∧ (∀ n : nat, n < 10 → pretty n = String (ascii_of_nat (48 + n)) "")
    ∧ (∀ n : nat, 10 ≤ n → pretty n = pretty (n / 10) +:+ pretty (n mod 10)).
Proof.
  intros Hpdf Htexts Hopen.
  eexists. split; [by apply extract_pdf_valid_file|].
  split; [unfold file_blocks; rewrite length_imap; apply Htexts|].
  split; [intros i t Hi; by rewrite (file_blocks_lookup texts i t Hi)|].
  split; [by apply read_pdf_valid|].
  split; [by rewrite printed_say|].
  split; [intros i t Hi; by rewrite (stdout_blocks_lookup _ i t Hi)|].
  split; [apply str_digit|apply str_tens].
Qed.

(** C2: on a valid document of N pages [read_pdf.py] ends normally and has
    printed, after the header, exactly [min 10 N] page blocks, those of the
    first pages in order: N of them when N < 10, ten when N >= 10. *)
Theorem preview_block_count env w reader texts :
  holds_pdf PdfReader w reader →
  page_texts num_pages extract_text env reader texts →
  ∃ w'' blocks,
    read_pdf PdfReader num_pages extract_text env w = (w'', inr tt)
    ∧ printed w w''
      = tagged "utf-8" (("총 페이지 수: " +:+ str (num_pages reader) +:+ LF) :: LF
                          :: concat blocks)
    ∧ (∀ i, i < min 10 (num_pages reader) →
         ∃ t, texts !! i = Some t ∧ blocks !! i = Some (block_prints (i + 1) t))
    ∧ length blocks = min 10 (num_pages reader)
    ∧ (num_pages reader < 10 → length blocks = num_pages reader)
    ∧ (10 ≤ num_pages reader → length blocks = 10).
Proof.
  intros Hpdf Htexts.
  assert (Hlen : length (stdout_blocks (take 10 texts)) = min 10 (num_pages reader)).
  { unfold stdout_blocks. rewrite length_imap, length_take.
    destruct Htexts as [-> _]. done. }
  exists (say (("총 페이지 수: " +:+ str (num_pages reader) +:+ LF) :: LF
                 :: concat (stdout_blocks (take 10 texts)))
            (reconfigured "utf-8" w)),
    (stdout_blocks (take 10 texts)).
  split; [by apply read_pdf_valid|].
  split; [by rewrite printed_say|].
  split.
  - intros i Hi. destruct Htexts as [Hl _].
    destruct (lookup_lt_is_Some_2 texts i) as [t Ht]; [lia|].
    exists t. split; [done|].
    apply stdout_blocks_lookup. rewrite lookup_take_lt; [done|lia].
  - rewrite Hlen. repeat split; lia.
Qed.

(** C3 (amended): on a valid document of N pages the characters of the
    output file are the header line with the decimal numeral of N and a
    blank line, then for each page a block that starts with a newline,
    followed by the separator line, the page line with the decimal numeral
    of the page's number counted from 1, the separator line, a blank line,
    the text of the page and a newline; the separator is sixty times the
    character [=].  The block is the one the specification words, with one
    newline in front.  The file is this one whether or not the completion
    message can be printed afterwards. *)
Theorem full_extract_file_structure env w reader texts :
  holds_pdf PdfReader w reader →
  page_texts num_pages extract_text env reader texts →
  openable w "nn_extracted.txt" = true →
  file_text (extract_pdf PdfReader num_pages extract_text env w).1
    "nn_extracted.txt"
  = Some (("총 페이지 수: " +:+ pretty (num_pages reader) +:+ LF +:+ LF)
          +:+ join (imap (λ i t, block (i + 1) t) texts))
  ∧ (∀ k t, block k t
            = LF +:+ separator +:+ LF +:+ "페이지 " +:+ pretty k +:+ LF
              +:+ separator +:+ LF +:+ LF +:+ t +:+ LF)
  ∧ (∀ k t, block k t = LF +:+ worded_block "페이지 " k t)
  ∧ String.length separator = 60
  ∧ (∀ i, i < 60 → String.get i separator = Some "="%char)
  ∧ (∀ n : nat, n < 10 → pretty n = String (ascii_of_nat (48 + n)) "")
  ∧ (∀ n : nat, 10 ≤ n → pretty n = pretty (n / 10) +:+ pretty (n mod 10)).
Proof.
  intros Hpdf Htexts Hopen.
  split.
  - unfold file_text.
    rewrite (extract_pdf_valid_file _ _ _ env w reader texts Hpdf Htexts Hopen).
    cbn [fmap option_fmap option_map]. rewrite chunks_text_tagged.
    change (join (header (num_pages reader) :: concat (file_blocks texts)))
      with (header (num_pages reader) +:+ join (concat (file_blocks texts))).
    by rewrite join_file_blocks.
  - split; [intros k t; unfold block, banner; by rewrite !append_assoc|].
    split; [intros k t; unfold block, banner, worded_block;
            by rewrite !append_assoc|].
    split; [apply (str_mul_length "="%char)|].
    split; [apply separator_chars|].
    split; [apply str_digit|apply str_tens].
Qed.

(** C4: a page whose extraction returns the empty string is no error in
    either script: [read_pdf.py] ends normally, [extract_pdf.py] gets through
    every page and ends as its completion message decides, and the page's
    block is there with its three banner strings, an empty text and the
    newline.  For a document of three pages whose second page extracts to
    the empty string the output file holds the header and three whole
    blocks, the second with a text of no characters. *)
Theorem empty_page_keeps_banner env w reader texts :
  holds_pdf PdfReader w reader →
  page_texts num_pages extract_text env reader texts →
  openable w "nn_extracted.txt" = true →
  ∃ w'',
    file_chunks (extract_pdf PdfReader num_pages extract_text env w).1
      "nn_extracted.txt"
    = Some (tagged "utf-8"
              (("총 페이지 수: " +:+ pretty (num_pages reader) +:+ LF +:+ LF)
                 :: concat (file_blocks texts)))
    ∧ (extract_pdf PdfReader num_pages extract_text env w).2
      = (if stdout_accepts w ("추출 완료! 총 " +:+ pretty (num_pages reader) +:+ " 페이지")
         then inr tt else inl UnicodeEncodeError)
    ∧ read_pdf PdfReader num_pages extract_text env w = (w'', inr tt)
    ∧ printed w w''
      = tagged "utf-8" (("총 페이지 수: " +:+ pretty (num_pages reader) +:+ LF) :: LF
                          :: concat (stdout_blocks (take 10 texts)))
    ∧ (∀ i, texts !! i = Some "" →
         file_blocks texts !! i
         = Some [LF +:+ separator +:+ LF; "페이지 " +:+ pretty (i + 1) +:+ LF;
                 separator +:+ LF +:+ LF; ""; LF]
         ∧ (i < 10 →
            stdout_blocks (take 10 texts) !! i
            = Some [LF +:+ separator; LF; "페이지 " +:+ pretty (i + 1); LF;
                    separator +:+ LF; LF; ""; LF]))
    ∧ (∀ t1 t3, texts = [t1; ""; t3] →
         file_chunks (extract_pdf PdfReader num_pages extract_text env w).1
           "nn_extracted.txt"
         = Some (tagged "utf-8"
             ["총 페이지 수: 3" +:+ LF +:+ LF;
              LF +:+ separator +:+ LF; "페이지 1" +:+ LF; separator +:+ LF +:+ LF; t1; LF;
              LF +:+ separator +:+ LF; "페이지 2" +:+ LF; separator +:+ LF +:+ LF; ""; LF;
              LF +:+ separator +:+ LF; "페이지 3" +:+ LF; separator +:+ LF +:+ LF; t3; LF])).
Proof.
  intros Hpdf Htexts Hopen.
  eexists. split; [by apply extract_pdf_valid_file|].
  split; [by apply (extract_pdf_valid_end _ _ _ env w reader texts)|].
  split; [by apply read_pdf_valid|].
  split; [by rewrite printed_say|].
  split.
  - intros i Hi. split; [by rewrite (file_blocks_lookup texts i "" Hi)|].
    intros Hlt. apply stdout_blocks_lookup. by rewrite lookup_take_lt.
  - intros t1 t3 Heq.
    rewrite (extract_pdf_valid_file _ _ _ env w reader texts Hpdf Htexts Hopen).
    subst texts. destruct Htexts as [Hlen _]. simpl in Hlen. by rewrite <- Hlen.
Qed.

(** C5: when [nn.pdf] is missing or cannot be read, both scripts stop with
    an exception of the file access class; [extract_pdf.py] leaves the
    world as it was, so [nn_extracted.txt] is neither created nor
    truncated, and [read_pdf.py] has printed nothing and changed no file. *)
Theorem missing_input_fails env w :
  can_read w "nn.pdf" = false →
  ∃ e w'',
    classify e = FileAccessError
    ∧ (fs w !! "nn.pdf" = None → e = FileNotFoundError)
    ∧ extract_pdf PdfReader num_pages extract_text env w = (w, inl e)
    ∧ read_pdf PdfReader num_pages extract_text env w = (w'', inl e)
    ∧ printed w w'' = []
    ∧ fs w'' = fs w.
Proof.
  unfold can_read. intros Hno.
  rewrite extract_pdf_run, read_pdf_run. cbv zeta.
  destruct (fs w !! "nn.pdf") as [f|]; simpl in Hno.
  - rewrite Hno. exists PermissionError, (reconfigured "utf-8" w).
    repeat split; [done|]. unfold printed; simpl. apply drop_all.
  - exists FileNotFoundError, (reconfigured "utf-8" w).
    repeat split. unfold printed; simpl. apply drop_all.
Qed.

(** *** Running [extract_pdf.py] again *)

Lemma loop_out_det block banner env1 env2 reader l :
  deterministic extract_text →
  loop_out block banner extract_text env1 reader l
  = loop_out block banner extract_text env2 reader l.
Proof.
  intros Hdet. induction l as [|i l IH]; [done|].
  simpl. rewrite (Hdet env1 env2 reader i), IH. done.
Qed.

(** The file system a run of [extract_pdf.py] leaves. *)
Lemma extract_pdf_fs env w :
  fs (extract_pdf PdfReader num_pages extract_text env w).1
  = match fs w !! "nn.pdf" with
    | None => fs w
    | Some f =>
        if readable f then
          match PdfReader (content f) with
          | None => fs w
          | Some reader =>
              if openable w "nn_extracted.txt" then
                <["nn_extracted.txt" :=
                    mkFile (from_option readable true (fs w !! "nn_extracted.txt")) true
                      (Text (tagged "utf-8"
                         (header (num_pages reader)
                            :: (loop_writes extract_text env reader
                                  (range (num_pages reader))).1)))]> (fs w)
              else fs w
          end
        else fs w
    end.
Proof.
  rewrite extract_pdf_run.
  destruct (fs w !! "nn.pdf") as [f|]; [|done].
  destruct (readable f); [|done].
  destruct (PdfReader (content f)) as [reader|]; [|done].
  destruct (openable w "nn_extracted.txt"); [|done].
  cbv zeta.
  destruct (loop_writes extract_text env reader (range (num_pages reader)))
    as [ss [|]]; [destruct (stdout_accepts w (completion (num_pages reader)))|];
    simpl; by rewrite alter_insert_eq.
Qed.

(** How a run of [extract_pdf.py] ends. *)
Lemma extract_pdf_end env w :
  (extract_pdf PdfReader num_pages extract_text env w).2
  = match fs w !! "nn.pdf" with
    | None => inl FileNotFoundError
    | Some f =>
        if readable f then
          match PdfReader (content f) with
          | None => inl PdfReadError
          | Some reader =>
              if openable w "nn_extracted.txt" then
                if (loop_writes extract_text env reader
                      (range (num_pages reader))).2
                then
                  if stdout_accepts w (completion (num_pages reader))
                  then inr tt else inl UnicodeEncodeError
                else inl PageExtractError
              else inl PermissionError
          end
        else inl PermissionError
    end.
Proof.
  rewrite extract_pdf_run.
  destruct (fs w !! "nn.pdf") as [f|]; [|done].
  destruct (readable f); [|done].
  destruct (PdfReader (content f)) as [reader|]; [|done].
  destruct (openable w "nn_extracted.txt"); [|done].
  cbv zeta.
  destruct (loop_writes extract_text env reader (range (num_pages reader)))
    as [ss [|]]; [|done].
  by destruct (stdout_accepts w (completion (num_pages reader))).
Qed.

(** A run of [extract_pdf.py] changes neither the encoding of standard
    output nor what the encodings take. *)
Lemma extract_pdf_accepts env w s :
  stdout_accepts (extract_pdf PdfReader num_pages extract_text env w).1 s
  = stdout_accepts w s.
Proof.
  rewrite extract_pdf_run.
  destruct (fs w !! "nn.pdf") as [f|]; [|done].
  destruct (readable f); [|done].
  destruct (PdfReader (content f)) as [reader|]; [|done].
  destruct (openable w "nn_extracted.txt"); [|done].
  cbv zeta.
  destruct (loop_writes extract_text env reader (range (num_pages reader)))
    as [ss [|]]; [|done].
  by destruct (stdout_accepts w (completion (num_pages reader))).
Qed.

(** C6: when the text of a page depends on the page alone, a second run of
    [extract_pdf.py] on the world the first run left, whatever else differs
    between the runs, leaves [nn_extracted.txt] as the first run left it,
    chunk for chunk, and ends as the first run ended. *)
Theorem full_extract_idempotent env1 env2 w :
  deterministic extract_text →
  let w1 := (extract_pdf PdfReader num_pages extract_text env1 w).1 in
  let w2 := (extract_pdf PdfReader num_pages extract_text env2 w1).1 in
  fs w2 !! "nn_extracted.txt" = fs w1 !! "nn_extracted.txt"
  ∧ file_text w2 "nn_extracted.txt" = file_text w1 "nn_extracted.txt"
  ∧ (extract_pdf PdfReader num_pages extract_text env2 w1).2
    = (extract_pdf PdfReader num_pages extract_text env1 w).2.
Proof.
  intros Hdet w1 w2.
  assert (Hfs : fs w2 = fs w1
                ∧ (extract_pdf PdfReader num_pages extract_text env2 w1).2
                  = (extract_pdf PdfReader num_pages extract_text env1 w).2).
  { subst w2. rewrite (extract_pdf_fs env2 w1), (extract_pdf_end env2 w1).
    rewrite (extract_pdf_end env1 w).
    assert (Hacc : ∀ s, stdout_accepts w1 s = stdout_accepts w s)
      by (intros s; apply extract_pdf_accepts).
    assert (Hopen1 : openable w1 "nn_extracted.txt"
                     = match fs w1 !! "nn_extracted.txt" with
                       | Some f => writable f
                       | None => cwd_writable w1
                       end) by done.
    rewrite Hopen1. clear Hopen1.
    subst w1. rewrite (extract_pdf_fs env1 w).
    destruct (fs w !! "nn.pdf") as [f|] eqn:Hf; [|by rewrite Hf].
    destruct (readable f) eqn:Hr; [|by rewrite Hf, Hr].
    destruct (PdfReader (content f)) as [reader|] eqn:Hp; [|by rewrite Hf, Hr, Hp].
    destruct (openable w "nn_extracted.txt") eqn:Ho.
    - rewrite lookup_insert_ne by done. rewrite Hf, Hr, Hp.
      rewrite lookup_insert_eq. simpl. rewrite insert_insert_eq.
      unfold loop_writes.
      rewrite (loop_out_det block_writes banner_writes env2 env1 reader _ Hdet).
      by rewrite Hacc.
    - rewrite Hf, Hr, Hp.
      rewrite extract_pdf_run, Hf, Hr, Hp, Ho. simpl.
      unfold openable in Ho. by rewrite Ho. }
  destruct Hfs as [Hfs Hend].
  split; [by rewrite Hfs|].
  split; [|done]. unfold file_text, file_chunks. by rewrite Hfs.
Qed.

(** C7: on a valid document of N pages [extract_pdf.py] prints its
    completion message, with the decimal numeral of N and the line end and
    nothing else, and ends normally exactly when standard output, whose
    encoding the script leaves as it finds it, takes the message; when it
    does not, the script stops with an encoding error after the file is
    written and prints nothing.  [read_pdf.py], which sets standard output
    to UTF-8 first, ends normally and what it has printed is the header and
    the blocks of the first pages, with nothing after the last block. *)
Theorem completion_message env w reader texts :
  holds_pdf PdfReader w reader →
  page_texts num_pages extract_text env reader texts →
  openable w "nn_extracted.txt" = true →
  ∃ w' w'',
    extract_pdf PdfReader num_pages extract_text env w
    = (w', if stdout_accepts w ("추출 완료! 총 " +:+ pretty (num_pages reader) +:+ " 페이지")
           then inr tt else inl UnicodeEncodeError)
    ∧ printed w w'
      = (if stdout_accepts w ("추출 완료! 총 " +:+ pretty (num_pages reader) +:+ " 페이지")
         then tagged (stream_encoding (stdout w))
                ["추출 완료! 총 " +:+ pretty (num_pages reader) +:+ " 페이지"; LF]
         else [])
    ∧ read_pdf PdfReader num_pages extract_text env w = (w'', inr tt)
    ∧ printed w w''
      = tagged "utf-8" (("총 페이지 수: " +:+ pretty (num_pages reader) +:+ LF) :: LF
                          :: concat (stdout_blocks (take 10 texts)))
    ∧ chunks_text (printed w w'')
      = ("총 페이지 수: " +:+ pretty (num_pages reader) +:+ LF +:+ LF)
        +:+ join (imap (λ i t, block (i + 1) t) (take 10 texts))
    ∧ (∀ n : nat, n < 10 → pretty n = String (ascii_of_nat (48 + n)) "")
    ∧ (∀ n : nat, 10 ≤ n → pretty n = pretty (n / 10) +:+ pretty (n mod 10)).
Proof.
  intros Hpdf Htexts Hopen.
  rewrite (extract_pdf_valid _ _ _ env w reader texts Hpdf Htexts Hopen).
  cbv zeta.
  change ("추출 완료! 총 " +:+ pretty (num_pages reader) +:+ " 페이지")
    with (completion (num_pages reader)).
  destruct (stdout_accepts w (completion (num_pages reader))).
  - eexists _, _. split; [done|].
    split; [by rewrite printed_say|].
    split; [by apply read_pdf_valid|].
    split; [by rewrite printed_say|].
    split; [|split; [apply str_digit|apply str_tens]].
    rewrite printed_say by done. rewrite chunks_text_tagged.
    change (join (?a :: LF :: ?l)) with (a +:+ LF +:+ join l).
    rewrite join_stdout_blocks. by rewrite !append_assoc.
  - eexists _, _. split; [done|].
    split; [by apply printed_same|].
    split; [by apply read_pdf_valid|].
    split; [by rewrite printed_say|].
    split; [|split; [apply str_digit|apply str_tens]].
    rewrite printed_say by done. rewrite chunks_text_tagged.
    change (join (?a :: LF :: ?l)) with (a +:+ LF +:+ join l).
    rewrite join_stdout_blocks. by rewrite !append_assoc.
Qed.

(** Every run of [read_pdf.py] leaves the world it started from with
    standard output set to UTF-8 and some strings printed after that. *)
Lemma read_pdf_says env w :
  ∃ ss, (read_pdf PdfReader num_pages extract_text env w).1
        = say ss (reconfigured "utf-8" w).
Proof.
  rewrite read_pdf_run. cbv zeta.
  destruct (fs w !! "nn.pdf") as [f|]; [|by exists []; rewrite say_nil].
  destruct (readable f); [|by exists []; rewrite say_nil].
  destruct (PdfReader (content f)) as [reader|]; [|by exists []; rewrite say_nil].
  by eexists.
Qed.

(** C8: whatever encoding standard output starts with, every string
    [read_pdf.py] prints is printed under UTF-8, the header included, and
    the stream is left set to UTF-8; and once [extract_pdf.py] has opened
    its output file, every string in the file was written under UTF-8,
    however the run ends. *)
Theorem output_is_utf8 env w :
  (∀ c, c ∈ printed w (read_pdf PdfReader num_pages extract_text env w).1 →
        c.1 = "utf-8")
  ∧ stream_encoding (stdout (read_pdf PdfReader num_pages extract_text env w).1)
    = "utf-8"
  ∧ (∀ reader,
       holds_pdf PdfReader w reader →
       openable w "nn_extracted.txt" = true →
       ∃ ss, file_chunks (extract_pdf PdfReader num_pages extract_text env w).1
               "nn_extracted.txt"
             = Some (tagged "utf-8" ss)).
Proof.
  destruct (read_pdf_says env w) as [ss Hss].
  split; [|split].
  - intros c. rewrite Hss, printed_say by done. simpl.
    unfold tagged. intros Hc. apply list_elem_of_fmap in Hc.
    by destruct Hc as (s & -> & _).
  - by rewrite Hss.
  - intros reader (f & Hf & Hr & Hp) Hopen.
    rewrite extract_pdf_run, Hf, Hr, Hp, Hopen. cbv zeta.
    eexists.
    destruct (loop_writes _ _ _ _).2;
      [destruct (stdout_accepts w (completion (num_pages reader)))|]; simpl.
    + by rewrite file_chunks_say, file_chunks_emit_truncated.
    + by rewrite file_chunks_emit_truncated.
    + by rewrite file_chunks_emit_truncated.
Qed.

Lemma blocks_take_drop (texts : list string) :
  join (imap (λ i t, block (i + 1) t) texts)
  = join (imap (λ i t, block (i + 1) t) (take 10 texts))
    +:+ join (imap (λ i t, block (10 + i + 1) t) (drop 10 texts)).
Proof.
  rewrite <- (take_drop 10 texts) at 1. rewrite imap_app, join_app.
  do 2 f_equal. apply imap_ext. intros i t Hi.
  rewrite lookup_drop in Hi. apply lookup_lt_Some in Hi.
  rewrite length_take. by replace (10 `min` length texts) with 10 by lia.
Qed.

(** C9: on a valid document the characters [read_pdf.py] prints are the
    header and the blocks of the first [min 10 N] pages, and the characters
    [extract_pdf.py] writes to its file are these same characters followed
    by the blocks of the remaining pages; the header with its blank line
    and each page's block are the same characters in both scripts.  The file
    is this one whether or not the completion message can be printed
    afterwards. *)
Theorem preview_is_prefix_of_full env w reader texts :
  holds_pdf PdfReader w reader →
  page_texts num_pages extract_text env reader texts →
  openable w "nn_extracted.txt" = true →
  ∃ w'',
    read_pdf PdfReader num_pages extract_text env w = (w'', inr tt)
    ∧ chunks_text (printed w w'')
      = ("총 페이지 수: " +:+ pretty (num_pages reader) +:+ LF +:+ LF)
        +:+ join (imap (λ i t, block (i + 1) t) (take 10 texts))
    ∧ length (take 10 texts) = min 10 (num_pages reader)
    ∧ file_text (extract_pdf PdfReader num_pages extract_text env w).1
        "nn_extracted.txt"
      = Some (chunks_text (printed w w'')
              +:+ join (imap (λ i t, block (10 + i + 1) t) (drop 10 texts)))
    ∧ join ["총 페이지 수: " +:+ pretty (num_pages reader) +:+ LF; LF]
      = join ["총 페이지 수: " +:+ pretty (num_pages reader) +:+ LF +:+ LF]
    ∧ (∀ k t, join (block_prints k t) = join (block_writes k t)).
Proof.
  intros Hpdf Htexts Hopen.
  assert (Hshown :
    chunks_text (tagged "utf-8"
       (("총 페이지 수: " +:+ str (num_pages reader) +:+ LF) :: LF
          :: concat (stdout_blocks (take 10 texts))))
    = header (num_pages reader)
      +:+ join (imap (λ i t, block (i + 1) t) (take 10 texts))).
  { rewrite chunks_text_tagged.
    change (join (?a :: LF :: ?l)) with (a +:+ LF +:+ join l).
    rewrite join_stdout_blocks. unfold header. by rewrite !append_assoc. }
  eexists. split; [by apply read_pdf_valid|].
  rewrite printed_say by done. simpl stream_encoding.
  split; [exact Hshown|].
  split; [rewrite length_take; by destruct Htexts as [-> _]|].
  split.
  - unfold file_text.
    rewrite (extract_pdf_valid_file _ _ _ env w reader texts Hpdf Htexts Hopen).
    cbn [fmap option_fmap option_map]. rewrite chunks_text_tagged, Hshown.
    change (join (header (num_pages reader) :: concat (file_blocks texts)))
      with (header (num_pages reader) +:+ join (concat (file_blocks texts))).
    rewrite join_file_blocks, (blocks_take_drop texts).
    by rewrite append_assoc.
  - split.
    + unfold join; simpl. by rewrite !append_assoc, !append_nil_r.
    + intros k t. by rewrite join_block_prints, join_block_writes.
Qed.

(** C10: when the pages before the page at index [i] can be extracted and
    that page cannot, [extract_pdf.py] stops with the page's exception and
    leaves an output file holding the header, the whole blocks of the
    pages before, and the three banner strings of the page numbered
    [i + 1] with nothing after them; nothing is printed. *)
Theorem page_failure_keeps_output env w reader texts :
  holds_pdf PdfReader w reader →
  openable w "nn_extracted.txt" = true →
  length texts < num_pages reader →
  (∀ j t, texts !! j = Some t → extract_text env reader j = Some t) →
  extract_text env reader (length texts) = None →
  ∃ w',
    extract_pdf PdfReader num_pages extract_text env w = (w', inl PageExtractError)
    ∧ classify PageExtractError = PageExtractionError
    ∧ file_chunks w' "nn_extracted.txt"
      = Some (tagged "utf-8"
                (header (num_pages reader)
                   :: concat (file_blocks texts)
                   ++ [LF +:+ separator +:+ LF;
                       "페이지 " +:+ str (length texts + 1) +:+ LF;
                       separator +:+ LF +:+ LF]))
    ∧ printed w w' = [].
Proof.
  intros (f & Hf & Hr & Hp) Hopen Hlt Hex Hfail.
  assert (Hloop : loop_writes extract_text env reader (range (num_pages reader))
                  = (concat (file_blocks texts) ++ banner_writes (length texts + 1),
                     false)).
  { unfold loop_writes, range.
    replace (num_pages reader)
      with (length texts + S (num_pages reader - S (length texts))) by lia.
    rewrite seq_app, loop_out_app. cbv zeta.
    rewrite (loop_out_ok extract_text env reader block_writes banner_writes texts 0)
      by (intros j t Hj; by apply Hex).
    simpl. by rewrite Hfail. }
  rewrite extract_pdf_run, Hf, Hr, Hp, Hopen. cbv zeta. rewrite Hloop. simpl.
  eexists. split; [done|]. split; [done|].
  split; [by rewrite file_chunks_emit_truncated|].
  by apply printed_same.
Qed.

End Claims.

(** ** The properties on concrete documents *)

(** [Toy.three] parses into the pages with the texts [Toy.three_texts], and
    [Toy.twelve] into those with the texts [Toy.twelve_texts]. *)
Lemma toy_three_holds :
  holds_pdf Toy.PdfReader (Toy.world_of Toy.three) (Some <$> Toy.three_texts).
Proof. exact (toy_holds_pdf Toy.three). Qed.

Lemma toy_twelve_holds :
  holds_pdf Toy.PdfReader (Toy.world_of Toy.twelve) (Some <$> Toy.twelve_texts).
Proof. exact (toy_holds_pdf Toy.twelve). Qed.

Lemma toy_broken_holds :
  holds_pdf Toy.PdfReader (Toy.world_of Toy.broken)
    [Some "a"; Some "b"; None; Some "c"].
Proof. exact (toy_holds_pdf Toy.broken). Qed.

(** The properties at the documents [Toy.three], [Toy.twelve] and
    [Toy.broken] and at the world without files. *)
Lemma full_extract_blocks_numbered_witness :
  file_chunks (Toy.extract_pdf (Toy.world_of Toy.three)).1 "nn_extracted.txt"
  = Some (tagged "utf-8"
            (("총 페이지 수: 3" +:+ LF +:+ LF) :: concat (file_blocks Toy.three_texts)))
  ∧ file_blocks Toy.three_texts !! 1
    = Some [LF +:+ separator +:+ LF; "페이지 2" +:+ LF;
            separator +:+ LF +:+ LF; ""; LF].
Proof.
  destruct (full_extract_blocks_numbered Toy.PdfReader Toy.num_pages
              Toy.extract_text tt (Toy.world_of Toy.three)
              (Some <$> Toy.three_texts) Toy.three_texts
              toy_three_holds (toy_page_texts Toy.three_texts)
              (toy_openable Toy.three))
    as (w'' & Hfile & _ & Hblocks & _).
  split; [exact Hfile|exact (Hblocks 1 "" eq_refl)].
Defined.

Lemma preview_block_count_witness :
  ∃ w'' (blocks : list (list string)),
    Toy.read_pdf (Toy.world_of Toy.twelve) = (w'', inr tt)
    ∧ printed (Toy.world_of Toy.twelve) w''
      = tagged "utf-8" (("총 페이지 수: " +:+ str 12 +:+ LF) :: LF :: concat blocks)
    ∧ length blocks = 10.
Proof.
  destruct (preview_block_count Toy.PdfReader Toy.num_pages
              Toy.extract_text tt (Toy.world_of Toy.twelve)
              (Some <$> Toy.twelve_texts) Toy.twelve_texts
              toy_twelve_holds (toy_page_texts Toy.twelve_texts))
    as (w'' & blocks & Hrun & Hout & _ & _ & _ & Hlen).
  exists w'', blocks. split; [exact Hrun|]. split; [exact Hout|].
  apply Hlen. vm_compute. lia.
Defined.

(** C3, as worded, fails on a document of one page with the text [a]: the
    file is not the worded structure, under the scripts' labels or under the
    specification's. *)
Lemma worded_structure_differs :
  holds_pdf Toy.PdfReader (Toy.world_of [Byte.x61]) [Some "a"]
  ∧ page_texts Toy.num_pages Toy.extract_text tt [Some "a"] ["a"]
  ∧ openable (Toy.world_of [Byte.x61]) "nn_extracted.txt" = true
  ∧ file_text (Toy.extract_pdf (Toy.world_of [Byte.x61])).1 "nn_extracted.txt"
    ≠ Some (worded_dump "총 페이지 수: " "페이지 " 1 ["a"])
  ∧ file_text (Toy.extract_pdf (Toy.world_of [Byte.x61])).1 "nn_extracted.txt"
    ≠ Some (worded_dump "Total page count: " "Page " 1 ["a"]).
Proof.
  split; [exact (toy_holds_pdf [Byte.x61])|].
  split; [exact (toy_page_texts ["a"])|].
  split; [exact (toy_openable [Byte.x61])|].
  split; intros Heq; vm_compute in Heq; discriminate Heq.
Qed.

Lemma full_extract_file_structure_witness :
  file_text (Toy.extract_pdf (Toy.world_of Toy.three)).1 "nn_extracted.txt"
  = Some (("총 페이지 수: 3" +:+ LF +:+ LF)
          +:+ join (imap (λ i t, block (i + 1) t) Toy.three_texts)).
Proof.
  exact (proj1 (full_extract_file_structure Toy.PdfReader Toy.num_pages
                  Toy.extract_text tt (Toy.world_of Toy.three)
                  (Some <$> Toy.three_texts) Toy.three_texts
                  toy_three_holds (toy_page_texts Toy.three_texts)
                  (toy_openable Toy.three))).
Defined.

Lemma empty_page_keeps_banner_witness :
  (Toy.extract_pdf (Toy.world_of Toy.three)).2 = inr tt
  ∧ file_blocks Toy.three_texts !! 1
    = Some [LF +:+ separator +:+ LF; "페이지 2" +:+ LF;
            separator +:+ LF +:+ LF; ""; LF].
Proof.
  destruct (empty_page_keeps_banner Toy.PdfReader Toy.num_pages
              Toy.extract_text tt (Toy.world_of Toy.three)
              (Some <$> Toy.three_texts) Toy.three_texts
              toy_three_holds (toy_page_texts Toy.three_texts)
              (toy_openable Toy.three))
    as (w'' & _ & Hend & _ & _ & Hempty & _).
  split; [exact Hend|exact (proj1 (Hempty 1 eq_refl))].
Defined.

Lemma missing_input_fails_witness :
  can_read Toy.empty_world "nn.pdf" = false
  ∧ ∃ e, classify e = FileAccessError
         ∧ Toy.extract_pdf Toy.empty_world = (Toy.empty_world, inl e).
Proof.
  split; [reflexivity|].
  destruct (missing_input_fails Toy.PdfReader Toy.num_pages Toy.extract_text
              tt Toy.empty_world eq_refl)
    as (e & w'' & Hclass & _ & Hrun & _).
  exists e. split; [exact Hclass|exact Hrun].
Defined.

Lemma toy_deterministic : deterministic Toy.extract_text.
Proof. intros [] [] reader i. reflexivity. Qed.

Lemma full_extract_idempotent_witness :
  let w1 := (Toy.extract_pdf (Toy.world_of Toy.three)).1 in
  let w2 := (Toy.extract_pdf w1).1 in
  fs w2 !! "nn_extracted.txt" = fs w1 !! "nn_extracted.txt".
Proof.
  exact (proj1 (full_extract_idempotent Toy.PdfReader Toy.num_pages
                  Toy.extract_text tt tt (Toy.world_of Toy.three)
                  toy_deterministic)).
Defined.

Lemma cases_plain_holds :
  holds_pdf Toy.PdfReader Cases.plain (Some <$> Toy.three_texts).
Proof.
  exists (mkFile true false (Binary Toy.three)). split; [|done].
  apply lookup_singleton_eq.
Qed.

Lemma cases_plain_openable : openable Cases.plain "nn_extracted.txt" = true.
Proof. unfold openable, Cases.plain; simpl. by rewrite lookup_singleton_ne. Qed.

(** On an ASCII standard output the run on the three pages stops with the
    encoding error and has printed nothing. *)
Lemma completion_message_witness :
  ∃ w',
    Toy.extract_pdf Cases.plain = (w', inl UnicodeEncodeError)
    ∧ printed Cases.plain w' = [].
Proof.
  destruct (completion_message Toy.PdfReader Toy.num_pages
              Toy.extract_text tt Cases.plain
              (Some <$> Toy.three_texts) Toy.three_texts
              cases_plain_holds (toy_page_texts Toy.three_texts)
              cases_plain_openable)
    as (w' & w'' & Hrun & Hout & _).
  exists w'. split; [exact Hrun|exact Hout].
Defined.

Lemma output_is_utf8_witness :
  ∃ ss, file_chunks (Toy.extract_pdf (Toy.world_of Toy.broken)).1 "nn_extracted.txt"
        = Some (tagged "utf-8" ss).
Proof.
  exact (proj2 (proj2 (output_is_utf8 Toy.PdfReader Toy.num_pages
                         Toy.extract_text tt (Toy.world_of Toy.broken)))
           _ toy_broken_holds (toy_openable Toy.broken)).
Defined.

Lemma preview_is_prefix_of_full_witness :
  ∃ w'',
    Toy.read_pdf (Toy.world_of Toy.twelve) = (w'', inr tt)
    ∧ file_text (Toy.extract_pdf (Toy.world_of Toy.twelve)).1 "nn_extracted.txt"
      = Some (chunks_text (printed (Toy.world_of Toy.twelve) w'')
              +:+ join (imap (λ i t, block (10 + i + 1) t) ["k"; "l"])).
Proof.
  destruct (preview_is_prefix_of_full Toy.PdfReader Toy.num_pages
              Toy.extract_text tt (Toy.world_of Toy.twelve)
              (Some <$> Toy.twelve_texts) Toy.twelve_texts
              toy_twelve_holds (toy_page_texts Toy.twelve_texts)
              (toy_openable Toy.twelve))
    as (w'' & Hshort & _ & _ & Hfile & _).
  exists w''. split; [exact Hshort|exact Hfile].
Defined.

Lemma toy_broken_prefix j t :
  ["a"; "b"] !! j = Some t →
  Toy.extract_text tt [Some "a"; Some "b"; None; Some "c"] j = Some t.
Proof.
  destruct j as [|[|j]]; simpl; intros Hj; by inversion Hj.
Qed.

Lemma page_failure_keeps_output_witness :
  ∃ w',
    Toy.extract_pdf (Toy.world_of Toy.broken) = (w', inl PageExtractError)
    ∧ file_chunks w' "nn_extracted.txt"
      = Some (tagged "utf-8"
                (header 4
                   :: concat (file_blocks ["a"; "b"])
                   ++ [LF +:+ separator +:+ LF; "페이지 " +:+ str 3 +:+ LF;
                       separator +:+ LF +:+ LF])).
Proof.
  assert (Hlt : length ["a"; "b"]
                < Toy.num_pages [Some "a"; Some "b"; None; Some "c"])
    by (vm_compute; lia).
  destruct (page_failure_keeps_output Toy.PdfReader Toy.num_pages
              Toy.extract_text tt (Toy.world_of Toy.broken)
              [Some "a"; Some "b"; None; Some "c"] ["a"; "b"]
              toy_broken_holds (toy_openable Toy.broken)
              Hlt toy_broken_prefix eq_refl)
    as (w' & Hrun & _ & Hfile & _).
  exists w'. split; [exact Hrun|exact Hfile].
Defined.

(** ** Further properties of the scripts *)

Lemma append_length (a b : string) :
  String.length (a +:+ b) = String.length a + String.length b.
Proof.
  induction a as [|x a IH]; [done|].
  change (S (String.length (a +:+ b)) = S (String.length a + String.length b)).
  by rewrite IH.
Qed.

Lemma append_inj_r (a b c : string) : a +:+ c = b +:+ c → a = b.
Proof.
  revert b. induction a as [|x a IH]; intros [|y b] Heq; [done| | |].
  - apply (f_equal String.length) in Heq.
    rewrite !append_length in Heq. simpl in Heq. lia.
  - apply (f_equal String.length) in Heq.
    rewrite !append_length in Heq. simpl in Heq. lia.
  - change (String x (a +:+ c) = String y (b +:+ c)) in Heq.
    injection Heq as -> Heq. f_equal. by apply IH.
Qed.

Lemma loop_end_ok (ok : bool) : loop_end ok = inr tt ↔ ok = true.
Proof. by destruct ok. Qed.

Lemma join_banner_writes k : join (banner_writes k) = banner k.
Proof.
  unfold banner_writes, banner, join. cbn [foldr].
  by rewrite !append_assoc, ?append_nil_r.
Qed.

Lemma join_banner_prints k : join (banner_prints k) = banner k.
Proof.
  unfold banner_prints, banner, join. cbn [foldr].
  by rewrite !append_assoc, ?append_nil_r.
Qed.

Section Extras.

Context {Document Env : Type}.
Variable PdfReader : Content → option Document.
Variable num_pages : Document → nat.
Variable extract_text : Env → Document → nat → option string.

(** A loop gets to its end exactly when every page it goes over can be
    extracted. *)
Lemma loop_out_ends block banner env reader l :
  (loop_out block banner extract_text env reader l).2 = true
  ↔ ∀ i, i ∈ l → is_Some (extract_text env reader i).
Proof.
  induction l as [|i l IH]; simpl.
  - split; [|done]. intros _ i Hi. by apply elem_of_nil in Hi.
  - destruct (extract_text env reader i) as [t|] eqn:Hi; simpl.
    + rewrite IH. split.
      * intros Hl j Hj. apply elem_of_cons in Hj as [->|Hj]; [by rewrite Hi|by apply Hl].
      * intros Hl j Hj. apply Hl. by apply elem_of_cons; right.
    + split; [done|]. intros Hl.
      destruct (Hl i) as [t Ht]; [by apply elem_of_cons; left|]. congruence.
Qed.

(** X1: a file that PyPDF2 cannot parse stops both scripts with the reader's
    exception before anything is written: [extract_pdf.py] leaves the world
    as it was, [nn_extracted.txt] included, and [read_pdf.py] has printed
    nothing and changed no file. *)
Theorem unparsable_input_fails env w f :
  fs w !! "nn.pdf" = Some f →
  readable f = true →
  PdfReader (content f) = None →
  extract_pdf PdfReader num_pages extract_text env w = (w, inl PdfReadError)
  ∧ classify PdfReadError = FileFormatError
  ∧ read_pdf PdfReader num_pages extract_text env w
    = (reconfigured "utf-8" w, inl PdfReadError)
  ∧ printed w (reconfigured "utf-8" w) = []
  ∧ fs (reconfigured "utf-8" w) = fs w.
Proof.
  intros Hf Hr Hp.
  rewrite extract_pdf_run, read_pdf_run, Hf, Hr, Hp. cbv zeta.
  repeat split. unfold printed; simpl. apply drop_all.
Qed.

(** X2: when [nn_extracted.txt] cannot be opened for writing,
    [extract_pdf.py] stops with a permission error of the file access class
    after parsing the document: no page is extracted, no file is changed and
    nothing is printed. *)
Theorem unwritable_output_fails env w reader :
  holds_pdf PdfReader w reader →
  openable w "nn_extracted.txt" = false →
  extract_pdf PdfReader num_pages extract_text env w = (w, inl PermissionError)
  ∧ classify PermissionError = FileAccessError.
Proof.
  intros (f & Hf & Hr & Hp) Hopen.
  by rewrite extract_pdf_run, Hf, Hr, Hp, Hopen.
Qed.

(** X3: however a run ends, [extract_pdf.py] changes no file but
    [nn_extracted.txt], and [read_pdf.py] changes no file at all. *)
Theorem other_files_untouched env w path :
  path ≠ "nn_extracted.txt" →
  fs (extract_pdf PdfReader num_pages extract_text env w).1 !! path = fs w !! path
  ∧ fs (read_pdf PdfReader num_pages extract_text env w).1 = fs w.
Proof.
  intros Hne. split.
  - rewrite extract_pdf_fs.
    destruct (fs w !! "nn.pdf") as [f|]; [|done].
    destruct (readable f); [|done].
    destruct (PdfReader (content f)) as [reader|]; [|done].
    destruct (openable w "nn_extracted.txt"); [|done].
    by rewrite lookup_insert_ne.
  - destruct (read_pdf_says PdfReader num_pages extract_text env w) as [ss ->].
    done.
Qed.

(** X4: [extract_pdf.py] never changes the encoding of standard output, and
    a run that ends with an exception, whichever it is, leaves standard
    output as it was: the completion message is printed by normal runs
    only. *)
Theorem failure_prints_nothing env w :
  stream_encoding (stdout (extract_pdf PdfReader num_pages extract_text env w).1)
  = stream_encoding (stdout w)
  ∧ ∀ e, (extract_pdf PdfReader num_pages extract_text env w).2 = inl e →
         stdout (extract_pdf PdfReader num_pages extract_text env w).1 = stdout w.
Proof.
  rewrite extract_pdf_run.
  destruct (fs w !! "nn.pdf") as [f|]; [|done].
  destruct (readable f); [|done].
  destruct (PdfReader (content f)) as [reader|]; [|done].
  destruct (openable w "nn_extracted.txt"); [|done].
  cbv zeta.
  destruct (loop_writes extract_text env reader (range (num_pages reader))) as [ss [|]];
    simpl; [|done].
  destruct (stdout_accepts w (completion (num_pages reader))); simpl; [|done].
  split; [done|]. intros e He. discriminate He.
Qed.

(** What the two loops emit when the pages with the texts [texts] can be
    extracted and the next page cannot. *)
Lemma loop_out_stops block banner env reader texts n :
  length texts < n →
  (∀ j t, texts !! j = Some t → extract_text env reader j = Some t) →
  extract_text env reader (length texts) = None →
  loop_out block banner extract_text env reader (range n)
  = (concat (imap (λ i t, block (i + 1) t) texts) ++ banner (length texts + 1),
     false).
Proof.
  intros Hlt Hex Hfail. unfold range.
  replace n with (length texts + S (n - S (length texts))) by lia.
  rewrite seq_app, loop_out_app. cbv zeta.
  rewrite (loop_out_ok extract_text env reader block banner texts 0)
    by (intros j t Hj; by apply Hex).
  simpl. by rewrite Hfail.
Qed.

(** X5: when the pages before the page at index [i] can be extracted, that
    page cannot and [i] is below the limit of ten, [read_pdf.py] stops with
    the page's exception having printed the header, the whole blocks of the
    pages before and the banner of the page numbered [i + 1], with nothing
    after it. *)
Theorem preview_page_failure env w reader texts :
  holds_pdf PdfReader w reader →
  length texts < min 10 (num_pages reader) →
  (∀ j t, texts !! j = Some t → extract_text env reader j = Some t) →
  extract_text env reader (length texts) = None →
  ∃ w'',
    read_pdf PdfReader num_pages extract_text env w = (w'', inl PageExtractError)
    ∧ printed w w''
      = tagged "utf-8"
          (("총 페이지 수: " +:+ str (num_pages reader) +:+ LF) :: LF
             :: concat (stdout_blocks texts)
             ++ [LF +:+ separator; LF; "페이지 " +:+ str (length texts + 1); LF;
                 separator +:+ LF; LF]).
Proof.
  intros (f & Hf & Hr & Hp) Hlt Hex Hfail.
  rewrite read_pdf_run, Hf, Hr, Hp. cbv zeta. unfold loop_prints.
  rewrite (loop_out_stops block_prints banner_prints env reader texts _ Hlt Hex Hfail).
  eexists. split; [done|]. by rewrite printed_say.
Qed.

(** X6: [read_pdf.py] asks for the text of the first [min 10 N] pages only:
    when these can be extracted it ends normally and prints their blocks,
    whatever the extraction of the later pages would do. *)
Theorem preview_reads_first_pages_only env w reader texts :
  holds_pdf PdfReader w reader →
  length texts = min 10 (num_pages reader) →
  (∀ j t, texts !! j = Some t → extract_text env reader j = Some t) →
  ∃ w'',
    read_pdf PdfReader num_pages extract_text env w = (w'', inr tt)
    ∧ printed w w''
      = tagged "utf-8"
          (("총 페이지 수: " +:+ str (num_pages reader) +:+ LF) :: LF
             :: concat (stdout_blocks texts)).
Proof.
  intros (f & Hf & Hr & Hp) Hlen Hex.
  rewrite read_pdf_run, Hf, Hr, Hp. cbv zeta. unfold loop_prints, range.
  rewrite <- Hlen.
  rewrite (loop_out_ok extract_text env reader block_prints banner_prints texts 0)
    by (intros j t Hj; by apply Hex).
  eexists. split; [done|]. by rewrite printed_say.
Qed.

(** X7: when the first page that cannot be extracted is among the first
    ten, both scripts stop at it with the same exception, and the characters
    in the output file of [extract_pdf.py] are those [read_pdf.py] has
    printed. *)
Theorem early_failure_same_characters env w reader texts :
  holds_pdf PdfReader w reader →
  openable w "nn_extracted.txt" = true →
  length texts < min 10 (num_pages reader) →
  (∀ j t, texts !! j = Some t → extract_text env reader j = Some t) →
  extract_text env reader (length texts) = None →
  ∃ w' w'',
    extract_pdf PdfReader num_pages extract_text env w = (w', inl PageExtractError)
    ∧ read_pdf PdfReader num_pages extract_text env w = (w'', inl PageExtractError)
    ∧ file_text w' "nn_extracted.txt" = Some (chunks_text (printed w w'')).
Proof.
  intros (f & Hf & Hr & Hp) Hopen Hlt Hex Hfail.
  assert (Hlt' : length texts < num_pages reader) by lia.
  rewrite extract_pdf_run, read_pdf_run, Hf, Hr, Hp, Hopen. cbv zeta.
  unfold loop_writes, loop_prints.
  rewrite (loop_out_stops block_writes banner_writes env reader texts _ Hlt' Hex Hfail).
  rewrite (loop_out_stops block_prints banner_prints env reader texts _ Hlt Hex Hfail).
  eexists _, _. split; [done|]. split; [done|].
  unfold file_text. rewrite file_chunks_emit_truncated.
  cbn [fmap option_fmap option_map]. f_equal.
  rewrite printed_say by done. rewrite !chunks_text_tagged.
  change (join (?a :: LF :: ?l)) with (a +:+ LF +:+ join l).
  change (join (header ?n :: ?l)) with (header n +:+ join l).
  cbn [fst]. fold (file_blocks texts). fold (stdout_blocks texts).
  rewrite !join_app, join_file_blocks, join_stdout_blocks.
  rewrite join_banner_writes, join_banner_prints.
  unfold header. by rewrite !append_assoc.
Qed.

(** X8: [nn_extracted.txt] is overwritten: once the document is parsed and
    the file opened, what the file holds depends on the document alone, not
    on what the file held before nor on anything else in the world; and the
    runs end the same way when their standard outputs agree on taking the
    completion message. *)
Theorem output_ignores_previous_file env wa wb reader :
  holds_pdf PdfReader wa reader →
  holds_pdf PdfReader wb reader →
  openable wa "nn_extracted.txt" = true →
  openable wb "nn_extracted.txt" = true →
  file_chunks (extract_pdf PdfReader num_pages extract_text env wa).1 "nn_extracted.txt"
  = file_chunks (extract_pdf PdfReader num_pages extract_text env wb).1 "nn_extracted.txt"
  ∧ (stdout_accepts wa (completion (num_pages reader))
     = stdout_accepts wb (completion (num_pages reader)) →
     (extract_pdf PdfReader num_pages extract_text env wa).2
     = (extract_pdf PdfReader num_pages extract_text env wb).2)
  ∧ ((extract_pdf PdfReader num_pages extract_text env wa).2 = inl PageExtractError
     ↔ (extract_pdf PdfReader num_pages extract_text env wb).2 = inl PageExtractError).
Proof.
  intros (fa & Hfa & Hra & Hpa) (fb & Hfb & Hrb & Hpb) Hoa Hob.
  rewrite !extract_pdf_end, Hfa, Hra, Hpa, Hoa, Hfb, Hrb, Hpb, Hob.
  split; [|split].
  - unfold file_chunks.
    rewrite !extract_pdf_fs, Hfa, Hra, Hpa, Hoa, Hfb, Hrb, Hpb, Hob.
    by rewrite !lookup_insert_eq.
  - by intros ->.
  - destruct (loop_writes extract_text env reader (range (num_pages reader))).2;
      [|done].
    by destruct (stdout_accepts wa (completion (num_pages reader))),
                (stdout_accepts wb (completion (num_pages reader))).
Qed.

(** X9: on a document without pages the output file of [extract_pdf.py]
    holds the header alone, and [read_pdf.py] ends normally having printed
    the header alone; no banner is emitted.  [extract_pdf.py] ends normally
    when standard output takes its completion message. *)
Theorem empty_document env w reader :
  holds_pdf PdfReader w reader →
  num_pages reader = 0 →
  openable w "nn_extracted.txt" = true →
  ∃ w'',
    file_chunks (extract_pdf PdfReader num_pages extract_text env w).1
      "nn_extracted.txt"
    = Some (tagged "utf-8" ["총 페이지 수: 0" +:+ LF +:+ LF])
    ∧ (stdout_accepts w "추출 완료! 총 0 페이지" = true →
       (extract_pdf PdfReader num_pages extract_text env w).2 = inr tt)
    ∧ read_pdf PdfReader num_pages extract_text env w = (w'', inr tt)
    ∧ printed w w'' = tagged "utf-8" ["총 페이지 수: 0" +:+ LF; LF].
Proof.
  intros Hpdf Hzero Hopen.
  assert (Htexts : page_texts num_pages extract_text env reader []).
  { split; [by rewrite Hzero|]. intros i t Hi. by rewrite lookup_nil in Hi. }
  rewrite (extract_pdf_valid_file _ _ _ env w reader [] Hpdf Htexts Hopen).
  rewrite (extract_pdf_valid_end _ _ _ env w reader [] Hpdf Htexts Hopen).
  rewrite (read_pdf_valid _ _ _ env w reader [] Hpdf Htexts).
  rewrite Hzero. eexists. split; [done|].
  split; [intros Hacc; change (completion 0) with "추출 완료! 총 0 페이지";
          by rewrite Hacc|].
  split; [done|]. by rewrite printed_say.
Qed.

(** X10: with the document parsed, [read_pdf.py] ends normally exactly when
    each of the first [min 10 N] pages can be extracted, and
    [extract_pdf.py], its output file opened, exactly when every page can
    and standard output takes the completion message. *)
Theorem normal_end_iff_pages_extract env w reader :
  holds_pdf PdfReader w reader →
  ((read_pdf PdfReader num_pages extract_text env w).2 = inr tt
   ↔ ∀ i, i < min 10 (num_pages reader) → is_Some (extract_text env reader i))
  ∧ (openable w "nn_extracted.txt" = true →
     ((extract_pdf PdfReader num_pages extract_text env w).2 = inr tt
      ↔ (∀ i, i < num_pages reader → is_Some (extract_text env reader i))
        ∧ stdout_accepts w ("추출 완료! 총 " +:+ pretty (num_pages reader) +:+ " 페이지")
          = true)).
Proof.
  intros (f & Hf & Hr & Hp). split.
  - rewrite read_pdf_run, Hf, Hr, Hp. cbv zeta. cbn [snd].
    rewrite loop_end_ok. unfold loop_prints. rewrite loop_out_ends.
    unfold range. split.
    + intros Hall i Hi. apply Hall. apply elem_of_seq. lia.
    + intros Hall i Hi. apply Hall. apply elem_of_seq in Hi. lia.
  - intros Hopen. rewrite extract_pdf_end, Hf, Hr, Hp, Hopen.
    change ("추출 완료! 총 " +:+ pretty (num_pages reader) +:+ " 페이지")
      with (completion (num_pages reader)).
    assert (Hloop :
      (loop_writes extract_text env reader (range (num_pages reader))).2 = true
      ↔ ∀ i, i < num_pages reader → is_Some (extract_text env reader i)).
    { unfold loop_writes. rewrite loop_out_ends. unfold range. split.
      - intros Hall i Hi. apply Hall. apply elem_of_seq. lia.
      - intros Hall i Hi. apply Hall. apply elem_of_seq in Hi. lia. }
    destruct (loop_writes extract_text env reader (range (num_pages reader))).2.
    + destruct (stdout_accepts w (completion (num_pages reader))).
      * split; [intros _; split; [by apply Hloop|done]|done].
      * split; [done|]. by intros [_ ?].
    + split; [done|]. intros [Hall _]. by apply Hloop in Hall.
Qed.

(** The string at a place in a run of blocks of five strings each. *)
Lemma concat_blocks_lookup (f : nat → string → list string) :
  ∀ (texts : list string) i t k,
    (∀ j u, length (f j u) = 5) →
    texts !! i = Some t →
    k < 5 →
    concat (imap f texts) !! (5 * i + k) = f i t !! k.
Proof.
  intros texts. revert f.
  induction texts as [|u texts IH]; intros f i t k Hlen Hi Hk; [done|].
  rewrite imap_cons. simpl concat. destruct i as [|i].
  - injection Hi as ->. rewrite lookup_app_l by (rewrite Hlen; lia).
    by rewrite Nat.mul_0_r.
  - rewrite lookup_app_r by (rewrite Hlen; lia). rewrite Hlen.
    replace (5 * S i + k - 5) with (5 * i + k) by lia.
    apply (IH (f ∘ S) i t k); [intros j v; apply Hlen|exact Hi|exact Hk].
Qed.

(** X11: in the output file of [extract_pdf.py] on a valid document the
    page line of the page at index [i] is the string at place [5 * i + 2],
    it shows the decimal numeral of [i + 1], and the page lines of two
    different pages differ: every block can be told from the others by its
    banner. *)
Theorem page_lines_differ env w reader texts :
  holds_pdf PdfReader w reader →
  page_texts num_pages extract_text env reader texts →
  openable w "nn_extracted.txt" = true →
  ∃ cs,
    file_chunks (extract_pdf PdfReader num_pages extract_text env w).1
      "nn_extracted.txt" = Some cs
    ∧ (∀ i, i < num_pages reader →
         cs !! (5 * i + 2) = Some ("utf-8", "페이지 " +:+ pretty (i + 1) +:+ LF))
    ∧ (∀ i j, i < num_pages reader → j < num_pages reader → i ≠ j →
         cs !! (5 * i + 2) ≠ cs !! (5 * j + 2)).
Proof.
  intros Hpdf Htexts Hopen.
  eexists. split; [by apply extract_pdf_valid_file|].
  assert (Hline : ∀ i, i < num_pages reader →
    tagged "utf-8" (header (num_pages reader) :: concat (file_blocks texts))
      !! (5 * i + 2)
    = Some ("utf-8", "페이지 " +:+ pretty (i + 1) +:+ LF)).
  { intros i Hi. destruct Htexts as [Hlen _].
    destruct (lookup_lt_is_Some_2 texts i) as [t Ht]; [lia|].
    unfold tagged. rewrite list_lookup_fmap.
    replace (5 * i + 2) with (S (5 * i + 1)) by lia.
    change ((header (num_pages reader) :: concat (file_blocks texts))
              !! S (5 * i + 1))
      with (concat (file_blocks texts) !! (5 * i + 1)).
    unfold file_blocks.
    rewrite (concat_blocks_lookup (λ i t, block_writes (i + 1) t) texts i t 1);
      [reflexivity|intros j u; reflexivity|exact Ht|lia]. }
  split; [exact Hline|].
  intros i j Hi Hj Hne Hsame.
  pose proof (eq_trans (eq_sym (Hline i Hi)) (eq_trans Hsame (Hline j Hj))) as Heq.
  injection Heq as Heq.
  apply String.app_inj in Heq. apply append_inj_r in Heq.
  apply (inj pretty) in Heq. lia.
Qed.

(** X12: when the first ten pages can be extracted and a later page
    cannot, [read_pdf.py] ends normally while [extract_pdf.py], its output
    file opened, stops with the page's exception. *)
Theorem late_failure_spares_preview env w reader j :
  holds_pdf PdfReader w reader →
  openable w "nn_extracted.txt" = true →
  (∀ i, i < 10 → is_Some (extract_text env reader i)) →
  10 ≤ j < num_pages reader →
  extract_text env reader j = None →
  (read_pdf PdfReader num_pages extract_text env w).2 = inr tt
  ∧ (extract_pdf PdfReader num_pages extract_text env w).2 = inl PageExtractError.
Proof.
  intros (f & Hf & Hr & Hp) Hopen Hfirst Hj Hfail. split.
  - rewrite read_pdf_run, Hf, Hr, Hp. cbv zeta. cbn [snd].
    apply loop_end_ok. unfold loop_prints. apply loop_out_ends.
    intros i Hi. apply elem_of_seq in Hi. apply Hfirst. lia.
  - rewrite extract_pdf_end, Hf, Hr, Hp, Hopen.
    destruct (loop_writes extract_text env reader (range (num_pages reader))).2
      eqn:Hend; [|done].
    unfold loop_writes in Hend.
    destruct (proj1 (loop_out_ends _ _ env reader _) Hend j) as [t Ht].
    + apply elem_of_seq. lia.
    + congruence.
Qed.

End Extras.

(** The further properties on concrete worlds. *)

Lemma unparsable_input_fails_witness :
  Toy.extract_pdf Cases.unparsable = (Cases.unparsable, inl PdfReadError).
Proof.
  exact (proj1 (unparsable_input_fails Toy.PdfReader Toy.num_pages
                  Toy.extract_text tt Cases.unparsable
                  (mkFile true false (Text [])) eq_refl eq_refl eq_refl)).
Defined.

Lemma cases_locked_holds :
  holds_pdf Toy.PdfReader Cases.locked (Some <$> Toy.three_texts).
Proof.
  exists (mkFile true false (Binary Toy.three)). split; [|done].
  apply lookup_singleton_eq.
Qed.

Lemma unwritable_output_fails_witness :
  Toy.extract_pdf Cases.locked = (Cases.locked, inl PermissionError).
Proof.
  exact (proj1 (unwritable_output_fails Toy.PdfReader Toy.num_pages
                  Toy.extract_text tt Cases.locked _
                  cases_locked_holds eq_refl)).
Defined.

Lemma other_files_untouched_witness :
  fs (Toy.extract_pdf (Toy.world_of Toy.three)).1 !! "nn.pdf"
  = fs (Toy.world_of Toy.three) !! "nn.pdf".
Proof.
  refine (proj1 (other_files_untouched Toy.PdfReader Toy.num_pages
                   Toy.extract_text tt (Toy.world_of Toy.three) "nn.pdf" _)).
  intros Heq. discriminate Heq.
Defined.

Lemma failure_prints_nothing_witness :
  stdout (Toy.extract_pdf (Toy.world_of Toy.broken)).1
  = stdout (Toy.world_of Toy.broken).
Proof.
  refine (proj2 (failure_prints_nothing Toy.PdfReader Toy.num_pages
                   Toy.extract_text tt (Toy.world_of Toy.broken))
            PageExtractError _).
  vm_compute. reflexivity.
Defined.

Lemma toy_broken_short :
  length ["a"; "b"] < min 10 (Toy.num_pages [Some "a"; Some "b"; None; Some "c"]).
Proof. vm_compute. lia. Qed.

Lemma preview_page_failure_witness :
  ∃ w'',
    Toy.read_pdf (Toy.world_of Toy.broken) = (w'', inl PageExtractError)
    ∧ printed (Toy.world_of Toy.broken) w''
      = tagged "utf-8"
          (("총 페이지 수: " +:+ str 4 +:+ LF) :: LF
             :: concat (stdout_blocks ["a"; "b"])
             ++ [LF +:+ separator; LF; "페이지 " +:+ str 3; LF;
                 separator +:+ LF; LF]).
Proof.
  exact (preview_page_failure Toy.PdfReader Toy.num_pages Toy.extract_text tt
           (Toy.world_of Toy.broken) [Some "a"; Some "b"; None; Some "c"]
           ["a"; "b"] toy_broken_holds toy_broken_short toy_broken_prefix eq_refl).
Defined.

Lemma cases_eleven_holds :
  holds_pdf Toy.PdfReader (Toy.world_of Cases.eleven)
    (Toy.page_of_byte <$> Cases.eleven).
Proof. exact (toy_holds_pdf Cases.eleven). Qed.

Lemma cases_eleven_first j t :
  take 10 Toy.twelve_texts !! j = Some t →
  Toy.extract_text tt (Toy.page_of_byte <$> Cases.eleven) j = Some t.
Proof.
  do 10 (destruct j as [|j]; [simpl; intros Hj; by inversion Hj|]).
  simpl. intros Hj. by inversion Hj.
Qed.

Lemma preview_reads_first_pages_only_witness :
  ∃ w'',
    Toy.read_pdf (Toy.world_of Cases.eleven) = (w'', inr tt)
    ∧ printed (Toy.world_of Cases.eleven) w''
      = tagged "utf-8"
          (("총 페이지 수: " +:+ str 11 +:+ LF) :: LF
             :: concat (stdout_blocks (take 10 Toy.twelve_texts))).
Proof.
  exact (preview_reads_first_pages_only Toy.PdfReader Toy.num_pages
           Toy.extract_text tt (Toy.world_of Cases.eleven)
           (Toy.page_of_byte <$> Cases.eleven) (take 10 Toy.twelve_texts)
           cases_eleven_holds eq_refl cases_eleven_first).
Defined.

Lemma early_failure_same_characters_witness :
  ∃ w' w'',
    Toy.extract_pdf (Toy.world_of Toy.broken) = (w', inl PageExtractError)
    ∧ Toy.read_pdf (Toy.world_of Toy.broken) = (w'', inl PageExtractError)
    ∧ file_text w' "nn_extracted.txt"
      = Some (chunks_text (printed (Toy.world_of Toy.broken) w'')).
Proof.
  exact (early_failure_same_characters Toy.PdfReader Toy.num_pages
           Toy.extract_text tt (Toy.world_of Toy.broken)
           [Some "a"; Some "b"; None; Some "c"] ["a"; "b"]
           toy_broken_holds (toy_openable Toy.broken)
           toy_broken_short toy_broken_prefix eq_refl).
Defined.

Lemma cases_stale_holds :
  holds_pdf Toy.PdfReader Cases.stale (Some <$> Toy.three_texts).
Proof.
  exists (mkFile true false (Binary Toy.three)). split; [|done].
  unfold Cases.stale; simpl. rewrite lookup_insert_ne by done.
  apply lookup_singleton_eq.
Qed.

Lemma cases_stale_openable : openable Cases.stale "nn_extracted.txt" = true.
Proof. unfold openable, Cases.stale; simpl. by rewrite lookup_insert_eq. Qed.

Lemma output_ignores_previous_file_witness :
  file_chunks (Toy.extract_pdf (Toy.world_of Toy.three)).1 "nn_extracted.txt"
  = file_chunks (Toy.extract_pdf Cases.stale).1 "nn_extracted.txt".
Proof.
  exact (proj1 (output_ignores_previous_file Toy.PdfReader Toy.num_pages
                  Toy.extract_text tt (Toy.world_of Toy.three) Cases.stale
                  (Some <$> Toy.three_texts)
                  toy_three_holds cases_stale_holds
                  (toy_openable Toy.three) cases_stale_openable)).
Defined.

Lemma empty_document_witness :
  file_chunks (Toy.extract_pdf (Toy.world_of [])).1 "nn_extracted.txt"
  = Some (tagged "utf-8" ["총 페이지 수: 0" +:+ LF +:+ LF])
  ∧ (Toy.extract_pdf (Toy.world_of [])).2 = inr tt.
Proof.
  destruct (empty_document Toy.PdfReader Toy.num_pages Toy.extract_text tt
              (Toy.world_of []) [] (toy_holds_pdf []) eq_refl (toy_openable []))
    as (w'' & Hfile & Hend & _).
  split; [exact Hfile|exact (Hend eq_refl)].
Defined.

Lemma normal_end_iff_pages_extract_witness :
  (Toy.read_pdf (Toy.world_of Toy.broken)).2 = inr tt
  ↔ ∀ i, i < min 10 4 →
         is_Some (Toy.extract_text tt [Some "a"; Some "b"; None; Some "c"] i).
Proof.
  exact (proj1 (normal_end_iff_pages_extract Toy.PdfReader Toy.num_pages
                  Toy.extract_text tt (Toy.world_of Toy.broken)
                  [Some "a"; Some "b"; None; Some "c"] toy_broken_holds)).
Defined.

Lemma page_lines_differ_witness :
  ∃ cs,
    file_chunks (Toy.extract_pdf (Toy.world_of Toy.three)).1 "nn_extracted.txt"
    = Some cs
    ∧ cs !! 7 = Some ("utf-8", "페이지 2" +:+ LF)
    ∧ cs !! 2 ≠ cs !! 12.
Proof.
  destruct (page_lines_differ Toy.PdfReader Toy.num_pages Toy.extract_text tt
              (Toy.world_of Toy.three) (Some <$> Toy.three_texts)
              Toy.three_texts toy_three_holds
              (toy_page_texts Toy.three_texts) (toy_openable Toy.three))
    as (cs & Hfile & Hline & Hdiff).
  exists cs. split; [exact Hfile|].
  assert (H1 : 1 < Toy.num_pages (Some <$> Toy.three_texts)) by (vm_compute; lia).
  assert (H0 : 0 < Toy.num_pages (Some <$> Toy.three_texts)) by (vm_compute; lia).
  assert (H2 : 2 < Toy.num_pages (Some <$> Toy.three_texts)) by (vm_compute; lia).
  split; [exact (Hline 1 H1)|].
  refine (Hdiff 0 2 H0 H2 _). lia.
Defined.

Lemma cases_eleven_ten i :
  i < 10 → is_Some (Toy.extract_text tt (Toy.page_of_byte <$> Cases.eleven) i).
Proof.
  intros Hi. do 10 (destruct i as [|i]; [by eexists|]). lia.
Qed.

Lemma late_failure_spares_preview_witness :
  (Toy.read_pdf (Toy.world_of Cases.eleven)).2 = inr tt
  ∧ (Toy.extract_pdf (Toy.world_of Cases.eleven)).2 = inl PageExtractError.
Proof.
  refine (late_failure_spares_preview Toy.PdfReader Toy.num_pages
            Toy.extract_text tt (Toy.world_of Cases.eleven)
            (Toy.page_of_byte <$> Cases.eleven) 10
            cases_eleven_holds (toy_openable Cases.eleven)
            cases_eleven_ten _ eq_refl).
  vm_compute. lia.
Defined.
